(** * vispy.gloo.framebuffer: RenderBuffer and FrameBuffer

    A shallow embedding of [vispy/gloo/framebuffer.py].  Python objects live
    in a store indexed by references, so that a buffer attached to a
    FrameBuffer and the buffer the client holds are one object.  Methods are
    computations in a state-and-exception monad over that store, the GLIR
    command queue and the id counter: a raised exception carries the state
    reached at the [raise], which is what a caller catching it observes. *)

From Stdlib Require Import ZArith String List Bool Lia.
From stdpp Require Import base gmap strings list.

Set Warnings "-register-all".

Local Open Scope Z_scope.
Local Open Scope string_scope.

(** ** Python values *)

(** Enumerants of the [gl] module that the file names. *)
Inductive GLenum : Type :=
  | GL_RGBA
  | GL_DEPTH_COMPONENT16
  | GL_STENCIL_INDEX8
  | GL_COLOR_ATTACHMENT0
  | GL_DEPTH_ATTACHMENT
  | GL_STENCIL_ATTACHMENT.

(** References to objects in the store (Python object identity). *)
Abbreviation ref := positive.

(** The values that reach the API: [None], booleans, integers, [gl]
    enumerants (integers by inheritance), strings, tuples, lists and
    references to objects. *)
Inductive value : Type :=
  | PyNone
  | PyBool (b : bool)
  | PyInt (z : Z)
  | PyEnum (e : GLenum)
  | PyStr (s : string)
  | PyTuple (l : list value)
  | PyList (l : list value)
  | PyObj (r : ref).

(** Classes of the module, and [Texture2D] which it imports. *)
Inductive pyclass : Type :=
  | cls_RenderBuffer
  | cls_ColorBuffer
  | cls_DepthBuffer
  | cls_StencilBuffer
  | cls_Texture2D
  | cls_FrameBuffer.

Definition pyclass_eqb (c d : pyclass) : bool :=
  match c, d with
  | cls_RenderBuffer, cls_RenderBuffer
  | cls_ColorBuffer, cls_ColorBuffer
  | cls_DepthBuffer, cls_DepthBuffer
  | cls_StencilBuffer, cls_StencilBuffer
  | cls_Texture2D, cls_Texture2D
  | cls_FrameBuffer, cls_FrameBuffer => true
  | _, _ => false
  end.

(** [class ColorBuffer(RenderBuffer)], [class DepthBuffer(RenderBuffer)],
    [class StencilBuffer(RenderBuffer)]. *)
Definition issubclass (c d : pyclass) : bool :=
  pyclass_eqb c d ||
  match c, d with
  | (cls_ColorBuffer | cls_DepthBuffer | cls_StencilBuffer), cls_RenderBuffer => true
  | _, _ => false
  end.

(** An instance: its class, the id that [GLObject.__init__] gives it, and
    its attributes.  An attribute that no assignment has created yet is
    [None] here, and reading it raises [AttributeError]; an attribute holding
    Python's [None] is [Some PyNone]. *)
Record pyobject : Type := mk_pyobject {
  class_ : pyclass;
  _id : Z;
  _resizeable : option value;
  _shape : option value;
  _format : option value;
  _color_buffer : option value;
  _depth_buffer : option value;
  _stencil_buffer : option value
}.

(** GLIR commands, [self._context.glir.command(...)]. *)
Inductive command : Type :=
  | CREATE (id : Z) (glir_type : string)
  | SIZE (id : Z) (shape : value) (format : value)
  | ATTACH (id : Z) (target : GLenum) (attached : Z).

(** Exceptions: the class and the message (a [%] template is kept as
    written, its argument is not formatted in; double quotes inside a
    message are written as single quotes). *)
Inductive exn : Type :=
  | RuntimeError (msg : string)
  | ValueError (msg : string)
  | TypeError (msg : string)
  | AttributeError (msg : string).

(** ** The store and the monad *)

Record world : Type := mk_world {
  heap : gmap positive pyobject;
  glir : list command;
  _idcount : Z
}.

Definition M (A : Type) : Type := world -> (exn + A) * world.

Definition ret {A} (a : A) : M A := fun w => (inr a, w).
Definition raise {A} (e : exn) : M A := fun w => (inl e, w).
Definition bind {A B} (m : M A) (k : A -> M B) : M B :=
  fun w => match m w with
           | (inr a, w') => k a w'
           | (inl e, w') => (inl e, w')
           end.

Notation "'let*' x ':=' m 'in' k" := (bind m (fun x => k))
  (at level 10, x pattern, m at level 100, k at level 200).

Definition outcome {A} (r : (exn + A) * world) : exn + A := fst r.
Definition after {A} (r : (exn + A) * world) : world := snd r.

(** Attribute names, for the messages of [AttributeError]. *)
Definition no_attribute (name : string) : exn := AttributeError name.

(** [v.name] where the attribute is stored in field [f]. *)
Definition getattr (f : pyobject -> option value) (name : string) (v : value) : M value :=
  fun w =>
    match v with
    | PyObj r =>
        match heap w !! r with
        | Some o => match f o with
                    | Some x => (inr x, w)
                    | None => (inl (no_attribute name), w)
                    end
        | None => (inl (no_attribute name), w)
        end
    | _ => (inl (no_attribute name), w)
    end.

(** The instance a reference denotes. *)
Definition deref (r : ref) : M pyobject :=
  fun w => match heap w !! r with
           | Some o => (inr o, w)
           | None => (inl (no_attribute "self"), w)
           end.

(** In-place mutation of the instance at [r]. *)
Definition mutate (r : ref) (g : pyobject -> pyobject) : M unit :=
  fun w => (inr tt, mk_world (alter g r (heap w)) (glir w) (_idcount w)).

Definition set_shape (v : value) (o : pyobject) : pyobject :=
  mk_pyobject (class_ o) (_id o) (_resizeable o) (Some v) (_format o)
              (_color_buffer o) (_depth_buffer o) (_stencil_buffer o).
Definition set_format (v : value) (o : pyobject) : pyobject :=
  mk_pyobject (class_ o) (_id o) (_resizeable o) (_shape o) (Some v)
              (_color_buffer o) (_depth_buffer o) (_stencil_buffer o).
Definition set_resizeable (v : value) (o : pyobject) : pyobject :=
  mk_pyobject (class_ o) (_id o) (Some v) (_shape o) (_format o)
              (_color_buffer o) (_depth_buffer o) (_stencil_buffer o).
Definition set_color (v : value) (o : pyobject) : pyobject :=
  mk_pyobject (class_ o) (_id o) (_resizeable o) (_shape o) (_format o)
              (Some v) (_depth_buffer o) (_stencil_buffer o).
Definition set_depth (v : value) (o : pyobject) : pyobject :=
  mk_pyobject (class_ o) (_id o) (_resizeable o) (_shape o) (_format o)
              (_color_buffer o) (Some v) (_stencil_buffer o).
Definition set_stencil (v : value) (o : pyobject) : pyobject :=
  mk_pyobject (class_ o) (_id o) (_resizeable o) (_shape o) (_format o)
              (_color_buffer o) (_depth_buffer o) (Some v).

(** [self._context.glir.command(...)]: append to the queue. *)
Definition glir_command (c : command) : M unit :=
  fun w => (inr tt, mk_world (heap w) (glir w ++ [c]) (_idcount w)).

(** ** Built-in predicates *)

Definition is_None (v : value) : bool :=
  match v with PyNone => true | _ => false end.

(** [bool(v)]: instances of the classes here define neither [__bool__] nor
    [__len__], so they are true. *)
Definition truthy (v : value) : bool :=
  match v with
  | PyNone => false
  | PyBool b => b
  | PyInt z => negb (Z.eqb z 0)
  | PyEnum _ => true
  | PyStr s => negb (String.eqb s EmptyString)
  | PyTuple l | PyList l => negb (Nat.eqb (length l) 0)
  | PyObj _ => true
  end.

Definition isinstance_tuple (v : value) : bool :=
  match v with PyTuple _ => true | _ => false end.

(** [isinstance(v, int)]: [bool] is a subclass of [int], and so are the
    enumerants of [gl]. *)
Definition isinstance_int (v : value) : bool :=
  match v with PyInt _ | PyBool _ | PyEnum _ => true | _ => false end.

Definition isinstance_str (v : value) : bool :=
  match v with PyStr _ => true | _ => false end.

(** [len(v)] where the code calls it, on a tuple. *)
Definition len (v : value) : nat :=
  match v with PyTuple l | PyList l => length l | _ => 0%nat end.

(** [isinstance(v, (c1, ..., cn))] for classes of this module. *)
Definition isinstance (v : value) (cs : list pyclass) : M bool :=
  fun w =>
    match v with
    | PyObj r =>
        match heap w !! r with
        | Some o => (inr (existsb (issubclass (class_ o)) cs), w)
        | None => (inr false, w)
        end
    | _ => (inr false, w)
    end.

(** [h, w = v]: unpacking into two targets. *)
Definition unpack2 (v : value) : M (value * value) :=
  match v with
  | PyTuple [h; w] | PyList [h; w] => ret (h, w)
  | PyTuple (_ :: _ :: _ :: _) | PyList (_ :: _ :: _ :: _) =>
      raise (ValueError "too many values to unpack")
  | PyTuple _ | PyList _ => raise (ValueError "need more than 1 value to unpack")
  | PyStr s =>
      match s with
      | String a (String b EmptyString) =>
          ret (PyStr (String a EmptyString), PyStr (String b EmptyString))
      | String _ (String _ (String _ _)) => raise (ValueError "too many values to unpack")
      | _ => raise (ValueError "need more than 1 value to unpack")
      end
  | _ => raise (TypeError "object is not iterable")
  end.

(** ** GLObject, the base class (from [globject.py]) *)

Module GLObject.

(** [_GLIR_TYPE] of each class. *)
Definition _GLIR_TYPE (c : pyclass) : string :=
  match c with
  | cls_FrameBuffer => "FrameBuffer"
  | cls_Texture2D => "Texture2D"
  | _ => "RenderBuffer"
  end.

(** Modelled from the spec: [GLObject.__init__] is not in this file.  Per
    sections 3 and 4.1 a GPU object gets a fresh LogicalId when it is
    constructed and emits CREATE with its kind tag; it has no kind-specific
    state yet.  The instance is allocated here as well, at a reference the
    store does not use, with no attribute set. *)
Definition __init__ (c : pyclass) : M ref :=
  fun w =>
    let self := fresh (dom (heap w)) in
    let id := _idcount w + 1 in
    let o := mk_pyobject c id None None None None None None in
    (inr self,
     mk_world (<[self := o]> (heap w)) (glir w ++ [CREATE id (_GLIR_TYPE c)]) id).

(** Modelled from the spec: the [id] property, the object's LogicalId. *)
Definition id (v : value) : M Z :=
  match v with
  | PyObj r => let* o := deref r in ret (_id o)
  | _ => raise (no_attribute "id")
  end.

End GLObject.

(** ** RenderBuffer *)

Module RenderBuffer.

(** The dict literal in [resize]. *)
Definition formats : list (string * GLenum) :=
  [("color", GL_RGBA); ("depth", GL_DEPTH_COMPONENT16); ("stencil", GL_STENCIL_INDEX8)].

Fixpoint dict_get (k : string) (d : list (string * GLenum)) : option GLenum :=
  match d with
  | [] => None
  | (k', v) :: d' => if String.eqb k k' then Some v else dict_get k d'
  end.

(** [isinstance(shape, tuple) and len(shape) in (2, 3)] *)
Definition shape_ok (shape : value) : bool :=
  isinstance_tuple shape && existsb (Nat.eqb (len shape)) [2; 3]%nat.

(** The [Check format] block of [resize]: the format to store. *)
Definition check_format (self : ref) (format : value) : M value :=
  if is_None format then
    let* format := getattr _format "_format" (PyObj self) in
    if is_None format then raise (ValueError "Format can only be None if already set.")
    else ret format
  else if isinstance_int format then ret format
  else match format with
       | PyStr s =>
           match dict_get s formats with
           | Some e => ret (PyEnum e)
           | None => raise (ValueError
               "RenderBuffer format must be 'color', 'depth' or 'stencil', not %r")
           end
       | _ => ret format
       end.

Definition resize (self : ref) (shape format : value) : M unit :=
  let* resizeable := getattr _resizeable "_resizeable" (PyObj self) in
  if negb (truthy resizeable) then raise (RuntimeError "Buffer is not resizeable")
  else if negb (shape_ok shape) then
    raise (ValueError "RenderBuffer shape must be a 2/3 element tuple")
  else
    let* format := check_format self format in
    let* _ := mutate self (set_shape shape) in
    let* _ := mutate self (set_format format) in
    let* o := deref self in
    let* shape' := getattr _shape "_shape" (PyObj self) in
    let* format' := getattr _format "_format" (PyObj self) in
    glir_command (SIZE (_id o) shape' format').

(** [__init__] run for an instance of class [c] ([RenderBuffer] itself or
    one of its three subclasses, which only pass their arguments on). *)
Definition __init__ (c : pyclass) (shape format resizeable : value) : M ref :=
  let* self := GLObject.__init__ c in
  let* _ := mutate self (set_resizeable (PyBool (truthy resizeable))) in
  let* _ := resize self shape format in
  ret self.

Definition shape (self : ref) : M value := getattr _shape "_shape" (PyObj self).
Definition format (self : ref) : M value := getattr _format "_format" (PyObj self).

End RenderBuffer.

(** The deprecated subclasses: each [__init__] passes its arguments to
    [RenderBuffer.__init__] and logs a deprecation warning (not modelled).
    [default_format] is the default of the [format] parameter. *)
Module ColorBuffer.
Definition default_format : value := PyEnum GL_RGBA.
Definition __init__ (shape format resizeable : value) : M ref :=
  RenderBuffer.__init__ cls_ColorBuffer shape format resizeable.
End ColorBuffer.

Module DepthBuffer.
Definition default_format : value := PyEnum GL_DEPTH_COMPONENT16.
Definition __init__ (shape format resizeable : value) : M ref :=
  RenderBuffer.__init__ cls_DepthBuffer shape format resizeable.
End DepthBuffer.

Module StencilBuffer.
Definition default_format : value := PyEnum GL_STENCIL_INDEX8.
Definition __init__ (shape format resizeable : value) : M ref :=
  RenderBuffer.__init__ cls_StencilBuffer shape format resizeable.
End StencilBuffer.

(** ** Texture2D (from [texture.py]) *)

Module Texture2D.

(** Modelled from the spec: the shape a texture or buffer keeps is the
    2-element (y, x) shape; a third element is ignored (sections 3, 4.2, 8). *)
Definition resolved (shape : value) : value :=
  match shape with
  | PyTuple (y :: x :: _) => PyTuple [y; x]
  | _ => shape
  end.

(** Modelled from the spec: [Texture2D.resize] is not in this file.  Section
    4.2 gives textures the contract of [resize(shape, format=None)]: it fails
    if [resizeable] is false (ImmutableResourceError, a [RuntimeError] as for
    the render buffer), fails if the arity of the shape is wrong
    (InvalidShapeError, a [ValueError]), reuses the last-set format when the
    format is omitted and fails if none was ever set (MissingFormatError, a
    [ValueError]), and then emits SIZE with the resolved shape and format. *)
Definition resize (self : ref) (shape format : value) : M unit :=
  let* o := deref self in
  match _resizeable o with
  | Some (PyBool true) =>
      if negb (RenderBuffer.shape_ok shape) then
        raise (ValueError "Texture shape must be a 2/3 element tuple")
      else
        let* format :=
          (if is_None format then
             match _format o with
             | Some PyNone | None => raise (ValueError "Texture format was never set")
             | Some f => ret f
             end
           else ret format) in
        let* _ := mutate self (fun o => set_format format (set_shape (resolved shape) o)) in
        glir_command (SIZE (_id o) (resolved shape) format)
  | _ => raise (RuntimeError "Texture is not resizeable")
  end.

(** Modelled from the spec: the [shape] property, the stored shape. *)
Definition shape (self : ref) : M value := getattr _shape "_shape" (PyObj self).

(** Modelled from the spec: [construct(shape, format, resizeable)] validates
    the shape and the format and emits CREATE then SIZE (section 4.2); the
    resizeable flag is set at construction (section 3). *)
Definition __init__ (shape format resizeable : value) : M ref :=
  let* self := GLObject.__init__ cls_Texture2D in
  if negb (RenderBuffer.shape_ok shape) then
    raise (ValueError "Texture shape must be a 2/3 element tuple")
  else if is_None format then raise (ValueError "Texture format was never set")
  else
    let* _ := mutate self (fun o =>
                set_resizeable (PyBool (truthy resizeable))
                  (set_format format (set_shape (resolved shape) o))) in
    let* o := deref self in
    let* _ := glir_command (SIZE (_id o) (resolved shape) format) in
    ret self.

End Texture2D.

(** ** Method dispatch on an attached object *)

(** [buffer.resize(shape)]: the method of the receiver's class.  The
    attachment slots only ever hold render buffers and textures. *)
Definition send_resize (buffer : value) (shape : value) : M unit :=
  match buffer with
  | PyObj r =>
      let* o := deref r in
      match class_ o with
      | cls_Texture2D => Texture2D.resize r shape PyNone
      | cls_FrameBuffer => raise (no_attribute "resize")
      | _ => RenderBuffer.resize r shape PyNone
      end
  | _ => raise (no_attribute "resize")
  end.

(** [buffer.shape]: the property of the receiver's class. *)
Definition send_shape (buffer : value) : M value :=
  match buffer with
  | PyObj r =>
      let* o := deref r in
      match class_ o with
      | cls_Texture2D => Texture2D.shape r
      | cls_FrameBuffer => raise (no_attribute "shape")
      | _ => RenderBuffer.shape r
      end
  | _ => raise (no_attribute "shape")
  end.

(** ** Helpers of [wrappers.py] *)

Module wrappers.

(** The array [read_pixels] returns, known by its shape; its elements are
    8-bit channels read back from the driver. *)
Inductive ndarray : Type := uint8_array (shape : list value).

(** Modelled from the spec: [_check_valid] is not in this file.  A mode must
    be one of the listed strings (section 4.3, [read]); anything else fails. *)
Definition _check_valid (key : string) (val : value) (valid : list string) : M unit :=
  match val with
  | PyStr s => if existsb (String.eqb s) valid then ret tt
               else raise (ValueError (key +:+ " must be one of the valid options"))
  | _ => raise (ValueError (key +:+ " must be one of the valid options"))
  end.

(** Modelled from the spec: [read_pixels] is not in this file.  For the
    viewport [(x, y, w, h)] it returns a pixel array of shape [(h, w, 4)]
    when [alpha] is true and [(h, w, 3)] otherwise (section 6). *)
Definition read_pixels (viewport : value) (alpha : value) : M ndarray :=
  match viewport with
  | PyTuple [_; _; w; h] =>
      ret (uint8_array [h; w; PyInt (if truthy alpha then 4 else 3)])
  | _ => raise (ValueError "viewport must be a 4-element tuple")
  end.

End wrappers.

(** ** FrameBuffer *)

Module FrameBuffer.

(** The property getters. *)
Definition color_buffer (self : ref) : M value :=
  getattr _color_buffer "_color_buffer" (PyObj self).
Definition depth_buffer (self : ref) : M value :=
  getattr _depth_buffer "_depth_buffer" (PyObj self).
Definition stencil_buffer (self : ref) : M value :=
  getattr _stencil_buffer "_stencil_buffer" (PyObj self).

(** [id = buffer.id if buffer else 0] *)
Definition id_or_0 (buffer : value) : M Z :=
  if truthy buffer then GLObject.id buffer else ret 0.

(** The property setters. *)
Definition set_color_buffer (self : ref) (buffer : value) : M unit :=
  let target := GL_COLOR_ATTACHMENT0 in
  let* inst := isinstance buffer [cls_ColorBuffer; cls_Texture2D] in
  if inst || is_None buffer then
    let* _ := mutate self (set_color buffer) in
    let* id := id_or_0 buffer in
    let* o := deref self in
    glir_command (ATTACH (_id o) target id)
  else raise (TypeError "Buffer must be a ColorBuffer, Texture2D or None. (got %s)").

Definition set_depth_buffer (self : ref) (buffer : value) : M unit :=
  let target := GL_DEPTH_ATTACHMENT in
  let* inst := isinstance buffer [cls_DepthBuffer; cls_Texture2D] in
  if inst || is_None buffer then
    let* _ := mutate self (set_depth buffer) in
    let* id := id_or_0 buffer in
    let* o := deref self in
    glir_command (ATTACH (_id o) target id)
  else raise (TypeError "Buffer must be a DepthBuffer, Texture2D or None. (got %s)").

Definition set_stencil_buffer (self : ref) (buffer : value) : M unit :=
  let target := GL_STENCIL_ATTACHMENT in
  let* inst := isinstance buffer [cls_StencilBuffer] in
  if inst || is_None buffer then
    let* _ := mutate self (set_stencil buffer) in
    let* id := id_or_0 buffer in
    let* o := deref self in
    glir_command (ATTACH (_id o) target id)
  else raise (TypeError "Buffer must be a StencilBuffer, Texture2D or None. (got %s)").

Definition __init__ (color depth stencil resizeable : value) : M ref :=
  let* self := GLObject.__init__ cls_FrameBuffer in
  let* _ := mutate self (set_shape PyNone) in
  let* _ := mutate self (set_color PyNone) in
  let* _ := mutate self (set_depth PyNone) in
  let* _ := mutate self (set_stencil PyNone) in
  let* _ := mutate self (set_resizeable (PyBool (truthy resizeable))) in
  let* _ := (if negb (is_None color) then set_color_buffer self color else ret tt) in
  let* _ := (if negb (is_None depth) then set_depth_buffer self depth else ret tt) in
  let* _ := (if negb (is_None stencil) then set_stencil_buffer self stencil else ret tt) in
  ret self.

Definition shape (self : ref) : M value :=
  let* c := color_buffer self in
  if negb (is_None c) then send_shape c
  else
    let* d := depth_buffer self in
    if negb (is_None d) then send_shape d
    else
      let* s := stencil_buffer self in
      if negb (is_None s) then send_shape s
      else raise (RuntimeError "FrameBuffer without buffers has undefined shape").

Definition resize (self : ref) (shape : value) : M unit :=
  let* resizeable := getattr _resizeable "_resizeable" (PyObj self) in
  if negb (truthy resizeable) then raise (RuntimeError "FrameBuffer is not resizeable")
  else if negb (RenderBuffer.shape_ok shape) then
    raise (ValueError "RenderBuffer shape must be a 2/3 element tuple")
  else
    let* c := color_buffer self in
    let* _ := (if negb (is_None c) then send_resize c shape else ret tt) in
    let* d := depth_buffer self in
    let* _ := (if negb (is_None d) then send_resize d shape else ret tt) in
    let* s := stencil_buffer self in
    if negb (is_None s) then send_resize s shape else ret tt.

(** [getattr(self, mode+'_buffer')] for a mode that [_check_valid] let
    through: the property of that name. *)
Definition mode_buffer (self : ref) (mode : value) : M value :=
  match mode with
  | PyStr s =>
      let name := s +:+ "_buffer" in
      if String.eqb name "color_buffer" then color_buffer self
      else if String.eqb name "depth_buffer" then depth_buffer self
      else if String.eqb name "stencil_buffer" then stencil_buffer self
      else raise (no_attribute name)
  | _ => raise (TypeError "unsupported operand type(s) for +")
  end.

Definition read (self : ref) (mode alpha : value) : M wrappers.ndarray :=
  let* _ := wrappers._check_valid "mode" mode ["color"; "depth"; "stencil"] in
  let* buffer := mode_buffer self mode in
  let* sh := getattr _shape "_shape" buffer in
  let* hw := unpack2 sh in
  let (h, w) := hw in
  wrappers.read_pixels (PyTuple [PyInt 0; PyInt 0; w; h]) alpha.

End FrameBuffer.

(** ** ScrollingLinesVisual (from [examples/demo/scene/scrolling_plots.py]) *)

Module ScrollingLinesVisual.

(** A Python slice [start:stop]; an omitted bound is [None]. *)
Record pyslice : Type := mk_slice { start : option Z; stop : option Z }.

(** One assignment [self._pos_tex[:, cols] = data[:, from]] (all rows); in
    [self._pos_tex[:, cols] = data] the whole of [data] is assigned and [from]
    is [None]. *)
Record write : Type := mk_write { cols : pyslice; from : option pyslice }.

(** The attributes that [roll_data] reads and writes: the shape of the
    texture (lines, samples per line), the offset, the assignments made to
    the texture so far (oldest first: the texture class itself is not in this
    file) and the [offset] uniform of the shader program. *)
Record visual : Type := mk_visual {
  _data_shape : Z * Z;
  _offset : Z;
  _pos_tex : list write;
  program_offset : Z
}.

Inductive error : Type := ZeroDivisionError.

(** [__init__]: a texture of zeros of shape [(n_lines, line_size)], offset 0. *)
Definition __init__ (n_lines line_size : Z) : visual :=
  mk_visual (n_lines, line_size) 0 [] 0.

(** [roll_data(data)] where [m] is [data.shape[1]], the number of new
    samples per line.  [%] raises for a divisor 0, after the two assignments
    of that branch were made. *)
Definition roll_data (self : visual) (m : Z) : (error + unit) * visual :=
  let s1 := snd (_data_shape self) - _offset self in
  if Z.gtb m s1 then
    let tex :=
      (_pos_tex self ++
         [mk_write (mk_slice (Some (_offset self)) None) (Some (mk_slice None (Some s1)));
          mk_write (mk_slice None (Some (m - s1))) (Some (mk_slice (Some s1) None))])%list in
    if Z.eqb (snd (_data_shape self)) 0 then
      (inl ZeroDivisionError,
       mk_visual (_data_shape self) (_offset self) tex (program_offset self))
    else
      let o := (_offset self + m) mod snd (_data_shape self) in
      (inr tt, mk_visual (_data_shape self) o tex o)
  else
    let tex :=
      (_pos_tex self ++
         [mk_write (mk_slice (Some (_offset self)) (Some (_offset self + m))) None])%list in
    let o := _offset self + m in
    (inr tt, mk_visual (_data_shape self) o tex o).

(** A sequence of [roll_data] calls with chunks of the given widths. *)
Definition roll_all (ms : list Z) (self : visual) : visual :=
  fold_left (fun v m => snd (roll_data v m)) ms self.

(** Python's resolution of a slice bound against a length: a negative bound
    counts from the end, and bounds are clipped to the length. *)
Definition clip (len i : Z) : Z :=
  if Z.ltb i 0 then Z.max (i + len) 0 else Z.min i len.

(** The indices a slice selects in a dimension of length [len]. *)
Definition columns (s : pyslice) (len : Z) : list Z :=
  let lo := match start s with Some i => clip len i | None => 0 end in
  let hi := match stop s with Some i => clip len i | None => len end in
  seqZ lo (hi - lo).

(** The slice of [data] that an assignment reads. *)
Definition data_slice (wr : write) : pyslice :=
  match from wr with Some sl => sl | None => mk_slice None None end.

(** The (texture column, data column) pairs of one assignment, for a texture
    with [L] samples per line and data with [m] samples per line. *)
Definition pairs (L m : Z) (wr : write) : list (Z * Z) :=
  zip (columns (cols wr) L) (columns (data_slice wr) m).

(** Both sides of the assignment select the same number of columns. *)
Definition fits (L m : Z) (wr : write) : Prop :=
  length (columns (cols wr) L) = length (columns (data_slice wr) m).

End ScrollingLinesVisual.

(** * Vocabulary of the statements *)

(** The world after the two assignments of [RenderBuffer.resize] and its
    command. *)
Definition stored (self : ref) (shape format : value) (w : world) : world :=
  mk_world (alter (set_format format) self (alter (set_shape shape) self (heap w)))
           (glir w ++ [SIZE (default 0 (_id <$> heap w !! self)) shape format])
           (_idcount w).

(** The exceptions [RenderBuffer.resize] raises. *)
Definition resize_errors : list exn :=
  [ RuntimeError "Buffer is not resizeable";
    ValueError "RenderBuffer shape must be a 2/3 element tuple";
    ValueError "Format can only be None if already set.";
    ValueError "RenderBuffer format must be 'color', 'depth' or 'stencil', not %r";
    AttributeError "_resizeable";
    AttributeError "_format" ].

(** What an attachment slot holds: a reference, or [None]. *)
Definition slot (a : option ref) : value :=
  match a with Some r => PyObj r | None => PyNone end.

(** The three slots of the FrameBuffer [fb] hold [c], [d] and [s]. *)
Definition holds (fb : pyobject) (c d s : option ref) : Prop :=
  _color_buffer fb = Some (slot c) /\
  _depth_buffer fb = Some (slot d) /\
  _stencil_buffer fb = Some (slot s).

(** The attached objects, in the order color, depth, stencil. *)
Definition present (c d s : option ref) : list ref := omap id [c; d; s].

(** [r] is a render buffer or a texture whose stored shape is [sh]. *)
Definition is_buffer (w : world) (r : ref) (sh : value) : Prop :=
  exists o, heap w !! r = Some o /\ class_ o <> cls_FrameBuffer /\ _shape o = Some sh.

Definition attached_ok (w : world) (a : option (ref * value)) : Prop :=
  match a with
  | Some (r, sh) => is_buffer w r sh
  | None => True
  end.

(** The shape an object of class [c] stores when it is resized to [shape]:
    a render buffer the tuple as given, a texture its two leading elements. *)
Definition kept (c : pyclass) (shape : value) : value :=
  match c with
  | cls_Texture2D => Texture2D.resolved shape
  | _ => shape
  end.

(** [resize(shape)] sent to each object of a list in turn, stopping at the
    first exception. *)
Fixpoint forward (shape : value) (l : list ref) : M unit :=
  match l with
  | [] => ret tt
  | r :: l' => let* _ := send_resize (PyObj r) shape in forward shape l'
  end.

(** The SIZE command that resizing [r] to [shape] queues, [r] read in [w]. *)
Definition size_command (w : world) (shape : value) (r : ref) : command :=
  match heap w !! r with
  | Some o => SIZE (_id o) (kept (class_ o) shape) (default PyNone (_format o))
  | None => SIZE 0 shape PyNone
  end.

(** Resizing [r] to [shape] took [w] to [w']: the object keeps its format,
    stores the shape, and one SIZE command is queued; nothing else changes. *)
Definition resized (r : ref) (shape : value) (w w' : world) : Prop :=
  exists o f,
    heap w !! r = Some o /\ _format o = Some f /\
    heap w' !! r = Some (set_format f (set_shape (kept (class_ o) shape) o)) /\
    (forall r', r' <> r -> heap w' !! r' = heap w !! r') /\
    glir w' = (glir w ++ [SIZE (_id o) (kept (class_ o) shape) f])%list /\
    _idcount w' = _idcount w.

(** The stored shape of [o] is the one a resize to [shape] leaves. *)
Definition at_size (shape : value) (o : pyobject) : Prop :=
  _shape o = Some (kept (class_ o) shape).

(** How resizes to [shape] may change an instance: only its stored shape,
    and only to that of [shape]. *)
Definition evolves (shape : value) (o o' : pyobject) : Prop :=
  class_ o' = class_ o /\ _id o' = _id o /\ _resizeable o' = _resizeable o /\
  _format o' = _format o /\
  _color_buffer o' = _color_buffer o /\ _depth_buffer o' = _depth_buffer o /\
  _stencil_buffer o' = _stencil_buffer o /\
  (_shape o' = _shape o \/ at_size shape o').

(** The FrameBuffer at [self] is in the store and its slots hold [c], [d]
    and [s]. *)
Definition slots_at (self : ref) (c d s : option ref) (w : world) : Prop :=
  exists fb, heap w !! self = Some fb /\ holds fb c d s.

(** The format [RenderBuffer.resize] stores for the argument [format] on the
    instance [o], when its [Check format] block lets it through. *)
Definition resolve_format (o : pyobject) (format : value) : option value :=
  if is_None format then
    match _format o with
    | Some f => if is_None f then None else Some f
    | None => None
    end
  else if isinstance_int format then Some format
  else match format with
       | PyStr s => PyEnum <$> RenderBuffer.dict_get s RenderBuffer.formats
       | _ => Some format
       end.

(** [isinstance(v, (c1, ..., cn))] read in the store of [w]. *)
Definition instance_of (w : world) (v : value) (cs : list pyclass) : bool :=
  match v with
  | PyObj r =>
      match heap w !! r with
      | Some o => existsb (issubclass (class_ o)) cs
      | None => false
      end
  | _ => false
  end.

(** The id that a slot setter sends in ATTACH for the value [v]. *)
Definition attached_id (w : world) (v : value) : Z :=
  match v with
  | PyObj r => default 0 (_id <$> heap w !! r)
  | _ => 0
  end.

(** The state a slot setter leaves when it accepts [v]: the attribute of
    [self] is assigned and one ATTACH command is queued. *)
Definition attached (set : value -> pyobject -> pyobject) (target : GLenum)
    (self : ref) (v : value) (w : world) : world :=
  mk_world (alter (set v) self (heap w))
           (glir w ++ [ATTACH (default 0 (_id <$> heap w !! self)) target (attached_id w v)])
           (_idcount w).

(** The queue of [w'] is the queue of [w] with commands added at its end. *)
Definition appends (w w' : world) : Prop :=
  exists l, glir w' = (glir w ++ l)%list.

(** A computation that only ever adds commands at the end of the queue. *)
Definition appending {A} (m : M A) : Prop := forall w, appends w (after (m w)).

(** The three attachment slots of a FrameBuffer, with the setter, the
    getter, the target, the accepted classes and the message of each. *)
Inductive slot_name : Type := color_slot | depth_slot | stencil_slot.

Definition setter (k : slot_name) : ref -> value -> M unit :=
  match k with
  | color_slot => FrameBuffer.set_color_buffer
  | depth_slot => FrameBuffer.set_depth_buffer
  | stencil_slot => FrameBuffer.set_stencil_buffer
  end.

Definition getter (k : slot_name) : ref -> M value :=
  match k with
  | color_slot => FrameBuffer.color_buffer
  | depth_slot => FrameBuffer.depth_buffer
  | stencil_slot => FrameBuffer.stencil_buffer
  end.

Definition slot_field (k : slot_name) : pyobject -> option value :=
  match k with
  | color_slot => _color_buffer
  | depth_slot => _depth_buffer
  | stencil_slot => _stencil_buffer
  end.

Definition slot_assign (k : slot_name) : value -> pyobject -> pyobject :=
  match k with
  | color_slot => set_color
  | depth_slot => set_depth
  | stencil_slot => set_stencil
  end.

Definition slot_target (k : slot_name) : GLenum :=
  match k with
  | color_slot => GL_COLOR_ATTACHMENT0
  | depth_slot => GL_DEPTH_ATTACHMENT
  | stencil_slot => GL_STENCIL_ATTACHMENT
  end.

Definition slot_accepts (k : slot_name) : list pyclass :=
  match k with
  | color_slot => [cls_ColorBuffer; cls_Texture2D]
  | depth_slot => [cls_DepthBuffer; cls_Texture2D]
  | stencil_slot => [cls_StencilBuffer]
  end.

Definition slot_message (k : slot_name) : string :=
  match k with
  | color_slot => "Buffer must be a ColorBuffer, Texture2D or None. (got %s)"
  | depth_slot => "Buffer must be a DepthBuffer, Texture2D or None. (got %s)"
  | stencil_slot => "Buffer must be a StencilBuffer, Texture2D or None. (got %s)"
  end.

(** What no method changes in an instance once it is built: its class, its
    id and its resizeable flag. *)
Definition same_flag (o o' : pyobject) : Prop :=
  class_ o' = class_ o /\ _id o' = _id o /\ _resizeable o' = _resizeable o.

(** Every instance of [w] is still in [w'], with its class, id and flag. *)
Definition extends (w w' : world) : Prop :=
  forall r o, heap w !! r = Some o ->
    exists o', heap w' !! r = Some o' /\ same_flag o o'.

(** A computation that keeps every instance with its class, id and flag. *)
Definition frame {A} (m : M A) : Prop := forall w, extends w (after (m w)).

(** A computation run from any state that extends [w] ends in a state that
    extends [w]: it may assign the flag of instances allocated since [w]. *)
Definition grows {A} (w : world) (m : M A) : Prop :=
  forall w1, extends w w1 -> extends w (after (m w1)).

(** The instance [RenderBuffer.__init__] has built when it calls [resize]:
    its reference and the state at the call. *)
Definition new_self (w : world) : ref := fresh (dom (heap w)).

Definition at_first_resize (c : pyclass) (resizeable : value) (w : world) : world :=
  mk_world
    (alter (set_resizeable (PyBool (truthy resizeable))) (new_self w)
       (<[new_self w := mk_pyobject c (_idcount w + 1) None None None None None None]>
          (heap w)))
    (glir w ++ [CREATE (_idcount w + 1) (GLObject._GLIR_TYPE c)])
    (_idcount w + 1).

(** [FrameBuffer.__init__] after its attributes are initialised: the state,
    and the rest of the constructor, which attaches the arguments. *)
Definition at_attach_args (resizeable : value) (w : world) : world :=
  mk_world
    (alter (set_resizeable (PyBool (truthy resizeable))) (new_self w)
       (alter (set_stencil PyNone) (new_self w)
          (alter (set_depth PyNone) (new_self w)
             (alter (set_color PyNone) (new_self w)
                (alter (set_shape PyNone) (new_self w)
                   (<[new_self w :=
                        mk_pyobject cls_FrameBuffer (_idcount w + 1)
                                    None None None None None None]> (heap w)))))))
    (glir w ++ [CREATE (_idcount w + 1) (GLObject._GLIR_TYPE cls_FrameBuffer)])
    (_idcount w + 1).

Definition attach_args (self : ref) (color depth stencil : value) : M ref :=
  let* _ := (if negb (is_None color) then FrameBuffer.set_color_buffer self color else ret tt) in
  let* _ := (if negb (is_None depth) then FrameBuffer.set_depth_buffer self depth else ret tt) in
  let* _ := (if negb (is_None stencil) then FrameBuffer.set_stencil_buffer self stencil
             else ret tt) in
  ret self.

(** The calls a client can make on the classes of the file. *)
Inductive call : Type :=
  | new_RenderBuffer (c : pyclass) (shape format resizeable : value)
  | new_Texture2D (shape format resizeable : value)
  | new_FrameBuffer (color depth stencil resizeable : value)
  | RenderBuffer_resize (self : ref) (shape format : value)
  | RenderBuffer_shape (self : ref)
  | RenderBuffer_format (self : ref)
  | Texture2D_resize (self : ref) (shape format : value)
  | FrameBuffer_set_color_buffer (self : ref) (buffer : value)
  | FrameBuffer_set_depth_buffer (self : ref) (buffer : value)
  | FrameBuffer_set_stencil_buffer (self : ref) (buffer : value)
  | FrameBuffer_color_buffer (self : ref)
  | FrameBuffer_depth_buffer (self : ref)
  | FrameBuffer_stencil_buffer (self : ref)
  | FrameBuffer_shape (self : ref)
  | FrameBuffer_resize (self : ref) (shape : value)
  | FrameBuffer_read (self : ref) (mode alpha : value).

(** The state after a call, whether it returned or raised. *)
Definition run (c : call) (w : world) : world :=
  match c with
  | new_RenderBuffer c shape format resizeable =>
      after (RenderBuffer.__init__ c shape format resizeable w)
  | new_Texture2D shape format resizeable =>
      after (Texture2D.__init__ shape format resizeable w)
  | new_FrameBuffer color depth stencil resizeable =>
      after (FrameBuffer.__init__ color depth stencil resizeable w)
  | RenderBuffer_resize self shape format => after (RenderBuffer.resize self shape format w)
  | RenderBuffer_shape self => after (RenderBuffer.shape self w)
  | RenderBuffer_format self => after (RenderBuffer.format self w)
  | Texture2D_resize self shape format => after (Texture2D.resize self shape format w)
  | FrameBuffer_set_color_buffer self buffer => after (FrameBuffer.set_color_buffer self buffer w)
  | FrameBuffer_set_depth_buffer self buffer => after (FrameBuffer.set_depth_buffer self buffer w)
  | FrameBuffer_set_stencil_buffer self buffer =>
      after (FrameBuffer.set_stencil_buffer self buffer w)
  | FrameBuffer_color_buffer self => after (FrameBuffer.color_buffer self w)
  | FrameBuffer_depth_buffer self => after (FrameBuffer.depth_buffer self w)
  | FrameBuffer_stencil_buffer self => after (FrameBuffer.stencil_buffer self w)
  | FrameBuffer_shape self => after (FrameBuffer.shape self w)
  | FrameBuffer_resize self shape => after (FrameBuffer.resize self shape w)
  | FrameBuffer_read self mode alpha => after (FrameBuffer.read self mode alpha w)
  end.

(** A sequence of calls, the client going on after an exception. *)
Definition run_all (cs : list call) (w : world) : world := fold_left (fun w c => run c w) cs w.

(** A call other than [FrameBuffer.read], whose readback makes the context
    process the queue. *)
Definition no_readback (c : call) : Prop :=
  match c with
  | FrameBuffer_read _ _ _ => False
  | _ => True
  end.

(** The attribute behind the property that [read] gets for a mode. *)
Definition mode_field (m : string) : option (pyobject -> option value) :=
  if String.eqb m "color" then Some _color_buffer
  else if String.eqb m "depth" then Some _depth_buffer
  else if String.eqb m "stencil" then Some _stencil_buffer
  else None.

(** ** Client programs *)

Module Scenario.

(** The state of a fresh process: no object, an empty queue. *)
Definition w0 : world := mk_world ∅ [] 0.

Definition yx (h w : Z) : value := PyTuple [PyInt h; PyInt w].
Definition yxz (h w d : Z) : value := PyTuple [PyInt h; PyInt w; PyInt d].

(** [rb = RenderBuffer((480, 640), 'color'); fb = FrameBuffer();
     fb.color_buffer = rb] *)
Definition attach_color : M unit :=
  let* rb := RenderBuffer.__init__ cls_RenderBuffer (yx 480 640) (PyStr "color") (PyBool true) in
  let* fb := FrameBuffer.__init__ PyNone PyNone PyNone (PyBool true) in
  FrameBuffer.set_color_buffer fb (PyObj rb).

(** [rb = RenderBuffer((480, 640), 'stencil'); fb = FrameBuffer();
     fb.stencil_buffer = rb] *)
Definition attach_stencil : M unit :=
  let* rb := RenderBuffer.__init__ cls_RenderBuffer (yx 480 640) (PyStr "stencil") (PyBool true) in
  let* fb := FrameBuffer.__init__ PyNone PyNone PyNone (PyBool true) in
  FrameBuffer.set_stencil_buffer fb (PyObj rb).

(** [rb = RenderBuffer((480, 640), 'color'); rb.resize((240, 320, 1));
     rb.shape] *)
Definition resize_three : M value :=
  let* rb := RenderBuffer.__init__ cls_RenderBuffer (yx 480 640) (PyStr "color") (PyBool true) in
  let* _ := RenderBuffer.resize rb (yxz 240 320 1) PyNone in
  RenderBuffer.shape rb.

(** [RenderBuffer((480, 640))] *)
Definition construct_without_format : M ref :=
  RenderBuffer.__init__ cls_RenderBuffer (yx 480 640) PyNone (PyBool true).

(** [cb = ColorBuffer((480, 640, 1)); fb = FrameBuffer(color=cb);
     fb.read('color', True)] *)
Definition read_three : M wrappers.ndarray :=
  let* cb := ColorBuffer.__init__ (yxz 480 640 1) ColorBuffer.default_format (PyBool true) in
  let* fb := FrameBuffer.__init__ (PyObj cb) PyNone PyNone (PyBool true) in
  FrameBuffer.read fb (PyStr "color") (PyBool true).

(** [cb = ColorBuffer((480, 640)); fb = FrameBuffer(color=cb);
     fb.resize((240, 320)); fb.shape; fb.read('color', True)] *)
Definition end_to_end : M (value * wrappers.ndarray) :=
  let* cb := ColorBuffer.__init__ (yx 480 640) ColorBuffer.default_format (PyBool true) in
  let* fb := FrameBuffer.__init__ (PyObj cb) PyNone PyNone (PyBool true) in
  let* _ := FrameBuffer.resize fb (yx 240 320) in
  let* sh := FrameBuffer.shape fb in
  let* px := FrameBuffer.read fb (PyStr "color") (PyBool true) in
  ret (sh, px).

(** A ColorBuffer at 1, a DepthBuffer at 2 and a FrameBuffer at 3 holding
    them. *)
Definition two_buffers : M ref :=
  let* cb := ColorBuffer.__init__ (yx 4 5) ColorBuffer.default_format (PyBool true) in
  let* db := DepthBuffer.__init__ (yx 4 5) DepthBuffer.default_format (PyBool true) in
  FrameBuffer.__init__ (PyObj cb) (PyObj db) PyNone (PyBool true).

Definition w_two_buffers : world := after (two_buffers w0).

Definition fb_two_buffers : pyobject :=
  mk_pyobject cls_FrameBuffer 3 (Some (PyBool true)) (Some PyNone) None
              (Some (PyObj 1%positive)) (Some (PyObj 2%positive)) (Some PyNone).

(** A ColorBuffer at 1, a texture that is not resizeable at 2 and a
    FrameBuffer at 3 holding them as color and depth. *)
Definition fixed_texture : M ref :=
  let* cb := ColorBuffer.__init__ (yx 4 5) ColorBuffer.default_format (PyBool true) in
  let* tx := Texture2D.__init__ (yx 4 5) (PyStr "rgba") (PyBool false) in
  FrameBuffer.__init__ (PyObj cb) (PyObj tx) PyNone (PyBool true).

Definition w_fixed_texture : world := after (fixed_texture w0).

(** One RenderBuffer at 1. *)
Definition w_one : world :=
  after (RenderBuffer.__init__ cls_RenderBuffer (yx 4 5) (PyStr "color") (PyBool true) w0).

(** The instance that [RenderBuffer((4, 5), 'color', resizeable=False)]
    leaves behind when it raises. *)
Definition w_refused : world :=
  after (RenderBuffer.__init__ cls_RenderBuffer (yx 4 5) (PyStr "color") (PyBool false) w0).

Definition rb_refused : pyobject :=
  mk_pyobject cls_RenderBuffer 1 (Some (PyBool false)) None None None None None.

(** The objects of [w_one] and [w_two_buffers]. *)
Definition rb_one : pyobject :=
  mk_pyobject cls_RenderBuffer 1 (Some (PyBool true)) (Some (yx 4 5))
              (Some (PyEnum GL_RGBA)) None None None.

Definition cb_two_buffers : pyobject :=
  mk_pyobject cls_ColorBuffer 1 (Some (PyBool true)) (Some (yx 4 5))
              (Some (PyEnum GL_RGBA)) None None None.

(** [fb = FrameBuffer()], at 1. *)
Definition w_empty : world :=
  after (FrameBuffer.__init__ PyNone PyNone PyNone (PyBool true) w0).

Definition fb_empty : pyobject :=
  mk_pyobject cls_FrameBuffer 1 (Some (PyBool true)) (Some PyNone) None
              (Some PyNone) (Some PyNone) (Some PyNone).

(** [fb = FrameBuffer(resizeable=False)], at 1. *)
Definition w_fixed : world :=
  after (FrameBuffer.__init__ PyNone PyNone PyNone (PyBool false) w0).

(** [cb = ColorBuffer((480, 640, 1)); fb = FrameBuffer(color=cb)], at 1
    and 2. *)
Definition three_elements : M ref :=
  let* cb := ColorBuffer.__init__ (yxz 480 640 1) ColorBuffer.default_format (PyBool true) in
  FrameBuffer.__init__ (PyObj cb) PyNone PyNone (PyBool true).

Definition w_three : world := after (three_elements w0).

Definition fb_three : pyobject :=
  mk_pyobject cls_FrameBuffer 2 (Some (PyBool true)) (Some PyNone) None
              (Some (PyObj 1%positive)) (Some PyNone) (Some PyNone).

Definition cb_three : pyobject :=
  mk_pyobject cls_ColorBuffer 1 (Some (PyBool true)) (Some (yxz 480 640 1))
              (Some (PyEnum GL_RGBA)) None None None.

(** A visual of 10 lines of 8 samples, fresh and after a chunk of 5. *)
Definition lines : ScrollingLinesVisual.visual := ScrollingLinesVisual.__init__ 10 8.

Definition lines_5 : ScrollingLinesVisual.visual :=
  snd (ScrollingLinesVisual.roll_data lines 5).

End Scenario.

(** * Properties *)

(** ** Steps of the monad *)

Lemma bind_ok {A B} (m : M A) (k : A -> M B) w a w' :
  m w = (inr a, w') -> bind m k w = k a w'.
Proof. intros H. unfold bind. now rewrite H. Qed.

Lemma bind_raise {A B} (m : M A) (k : A -> M B) w e w' :
  m w = (inl e, w') -> bind m k w = (inl e, w').
Proof. intros H. unfold bind. now rewrite H. Qed.

Lemma bind_inv_raise {A B} (m : M A) (k : A -> M B) w e w' :
  bind m k w = (inl e, w') ->
  m w = (inl e, w') \/ exists a w1, m w = (inr a, w1) /\ k a w1 = (inl e, w').
Proof.
  unfold bind. destruct (m w) as [[e1 | a] w1]; intros H.
  - left. now inversion H.
  - right. exists a, w1. split; [reflexivity | exact H].
Qed.

Lemma bind_inv_ok {A B} (m : M A) (k : A -> M B) w b w' :
  bind m k w = (inr b, w') ->
  exists a w1, m w = (inr a, w1) /\ k a w1 = (inr b, w').
Proof.
  unfold bind. destruct (m w) as [[e1 | a] w1]; intros H.
  - discriminate.
  - exists a, w1. split; [reflexivity | exact H].
Qed.

Lemma getattr_set f name r w o x :
  heap w !! r = Some o -> f o = Some x -> getattr f name (PyObj r) w = (inr x, w).
Proof. intros Hr Hf. unfold getattr. now rewrite Hr, Hf. Qed.

Lemma getattr_unset f name r w o :
  heap w !! r = Some o -> f o = None ->
  getattr f name (PyObj r) w = (inl (AttributeError name), w).
Proof. intros Hr Hf. unfold getattr. now rewrite Hr, Hf. Qed.

(** Reading an attribute never changes the state. *)
Lemma getattr_pure f name v w res w' : getattr f name v w = (res, w') -> w' = w.
Proof.
  unfold getattr. intros H.
  destruct v; try (now inversion H).
  destruct (heap w !! r) as [o |]; [destruct (f o) |]; now inversion H.
Qed.

Lemma getattr_inv_ok f name v w x w' :
  getattr f name v w = (inr x, w') ->
  w' = w /\ exists r o, v = PyObj r /\ heap w !! r = Some o /\ f o = Some x.
Proof.
  unfold getattr. intros H.
  destruct v; try discriminate.
  destruct (heap w !! r) as [o |] eqn:Hr; [| discriminate].
  destruct (f o) as [y |] eqn:Hf; [| discriminate].
  inversion H; subst. split; [reflexivity |]. now exists r, o.
Qed.

Lemma deref_ok r w o : heap w !! r = Some o -> deref r w = (inr o, w).
Proof. intros H. unfold deref. now rewrite H. Qed.

(** ** RenderBuffer.resize *)

Module RenderBufferFacts.
Import RenderBuffer.

(** Validation of the format reads the state and never writes it. *)
Lemma check_format_pure self format w res w' :
  check_format self format w = (res, w') -> w' = w.
Proof.
  unfold check_format. intros H.
  destruct (is_None format).
  - unfold bind in H.
    destruct (getattr _format "_format" (PyObj self) w) as [[e | f] w1] eqn:Hg.
    + apply getattr_pure in Hg. inversion H; subst; reflexivity.
    + apply getattr_pure in Hg. subst w1.
      destruct (is_None f); now inversion H.
  - destruct (isinstance_int format); [now inversion H |].
    destruct format; try (now inversion H).
    destruct (dict_get s formats); now inversion H.
Qed.

(** Once validation has passed, [resize] stores the shape as given and the
    checked format, and emits SIZE with them. *)
Lemma resize_commit self shape format w o v f :
  heap w !! self = Some o ->
  _resizeable o = Some v -> truthy v = true ->
  shape_ok shape = true ->
  check_format self format w = (inr f, w) ->
  resize self shape format w = (inr tt, stored self shape f w).
Proof.
  intros Ho Hv Ht Hs Hc. unfold resize.
  rewrite (bind_ok _ _ _ _ _ (getattr_set _ _ _ _ _ _ Ho Hv)).
  rewrite Ht, Hs. cbn [negb].
  rewrite (bind_ok _ _ _ _ _ Hc).
  assert (Hl : alter (set_format f) self (alter (set_shape shape) self (heap w)) !! self
               = Some (set_format f (set_shape shape o))).
  { rewrite !lookup_alter_eq, Ho. reflexivity. }
  unfold bind, mutate, deref, getattr, glir_command, stored.
  cbn [heap glir _idcount].
  repeat (rewrite Hl; cbn [heap glir _idcount _shape _format _id set_format set_shape]).
  rewrite Ho. reflexivity.
Qed.

Lemma getattr_inv_raise f name v w e w' :
  getattr f name v w = (inl e, w') -> w' = w /\ e = AttributeError name.
Proof.
  intros H. pose proof (getattr_pure _ _ _ _ _ _ H) as ->. split; [reflexivity |].
  unfold getattr in H.
  destruct v; try (now inversion H).
  destruct (heap w !! r) as [o |]; [destruct (f o) |]; now inversion H.
Qed.

Lemma check_format_raise self format w e w' :
  check_format self format w = (inl e, w') -> In e resize_errors.
Proof.
  unfold check_format. intros H.
  destruct (is_None format).
  - apply bind_inv_raise in H as [H | (f & w1 & _ & H)].
    + apply getattr_inv_raise in H as [_ ->]. cbn. tauto.
    + destruct (is_None f); inversion H; subst. cbn. tauto.
  - destruct (isinstance_int format); [discriminate |].
    destruct format; try discriminate.
    destruct (dict_get s formats); inversion H; subst. cbn. tauto.
Qed.

(** [resize] either raises one of its exceptions in the state it was called
    in, or passes validation and commits. *)
Lemma resize_cases self shape format w :
  (exists e, In e resize_errors /\ resize self shape format w = (inl e, w)) \/
  (exists o v f, heap w !! self = Some o /\ _resizeable o = Some v /\ truthy v = true /\
                 shape_ok shape = true /\ check_format self format w = (inr f, w) /\
                 resize self shape format w = (inr tt, stored self shape f w)).
Proof.
  destruct (getattr _resizeable "_resizeable" (PyObj self) w) as [[e | v] w1] eqn:Hg.
  - left. apply getattr_inv_raise in Hg as Hg'. destruct Hg' as [-> ->].
    eexists. split; [| unfold resize; rewrite (bind_raise _ _ _ _ _ Hg); reflexivity].
    cbn. tauto.
  - apply getattr_inv_ok in Hg as Hg'. destruct Hg' as (-> & r & o & Hr & Ho & Hv).
    inversion Hr; subst r.
    destruct (truthy v) eqn:Ht.
    2:{ left. eexists. split; [| unfold resize; rewrite (bind_ok _ _ _ _ _ Hg), Ht; reflexivity].
        cbn. tauto. }
    destruct (shape_ok shape) eqn:Hs.
    2:{ left. eexists. split;
          [| unfold resize; rewrite (bind_ok _ _ _ _ _ Hg), Ht, Hs; reflexivity].
        cbn. tauto. }
    destruct (check_format self format w) as [[e | f] w1] eqn:Hc.
    + left. pose proof (check_format_pure _ _ _ _ _ Hc) as ->. exists e. split.
      * eapply check_format_raise; eassumption.
      * unfold resize. rewrite (bind_ok _ _ _ _ _ Hg), Ht, Hs. cbn [negb].
        now rewrite (bind_raise _ _ _ _ _ Hc).
    + right. pose proof (check_format_pure _ _ _ _ _ Hc) as ->.
      exists o, v, f. repeat split; try assumption.
      eapply resize_commit; eassumption.
Qed.

(** With the format omitted, validation yields the format stored last. *)
Lemma check_format_reuse self w o f :
  heap w !! self = Some o -> _format o = Some f -> is_None f = false ->
  check_format self PyNone w = (inr f, w).
Proof.
  intros Ho Hf Hn. unfold check_format. cbn [is_None].
  rewrite (bind_ok _ _ _ _ _ (getattr_set _ _ _ _ _ _ Ho Hf)). now rewrite Hn.
Qed.

(** What the object at [self] is after [resize] has committed. *)
Lemma stored_lookup self shape f w o :
  heap w !! self = Some o ->
  heap (stored self shape f w) !! self = Some (set_format f (set_shape shape o)).
Proof. intros Ho. unfold stored. cbn [heap]. now rewrite !lookup_alter_eq, Ho. Qed.

Lemma stored_lookup_ne self shape f w r :
  r <> self -> heap (stored self shape f w) !! r = heap w !! r.
Proof.
  intros Hne. unfold stored. cbn [heap].
  rewrite !lookup_alter_ne by congruence. reflexivity.
Qed.

Lemma stored_glir self shape f w o :
  heap w !! self = Some o ->
  glir (stored self shape f w) = (glir w ++ [SIZE (_id o) shape f])%list.
Proof. intros Ho. unfold stored. cbn [glir]. now rewrite Ho. Qed.

(** A successful [resize] followed by a query of [shape] returns the tuple
    that was passed, whatever its arity. *)
Lemma resize_then_shape self shape format w w' :
  resize self shape format w = (inr tt, w') ->
  RenderBuffer.shape self w' = (inr shape, w').
Proof.
  intros H.
  destruct (resize_cases self shape format w) as [(e & _ & He) | (o & v & f & Ho & _ & _ & _ & _ & Hr)].
  - rewrite He in H. discriminate.
  - rewrite Hr in H. inversion H; subst w'.
    unfold RenderBuffer.shape.
    eapply getattr_set; [apply stored_lookup; eassumption | reflexivity].
Qed.

(** With the format omitted, a resizeable buffer whose format is set keeps
    it: it is stored again and sent in the SIZE command. *)
Lemma resize_reuses_format self shape w o v f :
  heap w !! self = Some o ->
  _resizeable o = Some v -> truthy v = true ->
  shape_ok shape = true ->
  _format o = Some f -> is_None f = false ->
  resize self shape PyNone w = (inr tt, stored self shape f w).
Proof.
  intros Ho Hv Ht Hs Hf Hn.
  eapply resize_commit; try eassumption.
  eapply check_format_reuse; eassumption.
Qed.

(** The line that raises for a missing format is reached when the attribute
    holds [None]. *)
Lemma resize_format_None self shape w o v :
  heap w !! self = Some o ->
  _resizeable o = Some v -> truthy v = true ->
  shape_ok shape = true ->
  _format o = Some PyNone ->
  resize self shape PyNone w =
    (inl (ValueError "Format can only be None if already set."), w).
Proof.
  intros Ho Hv Ht Hs Hf. unfold resize.
  rewrite (bind_ok _ _ _ _ _ (getattr_set _ _ _ _ _ _ Ho Hv)), Ht, Hs. cbn [negb].
  unfold check_format. cbn [is_None].
  unfold bind at 1. unfold bind at 1.
  rewrite (getattr_set _ _ _ _ _ _ Ho Hf). reflexivity.
Qed.

(** A buffer whose flag is false (or falsy) is refused at the first line. *)
Lemma resize_refused self shape format w o v :
  heap w !! self = Some o ->
  _resizeable o = Some v -> truthy v = false ->
  resize self shape format w = (inl (RuntimeError "Buffer is not resizeable"), w).
Proof.
  intros Ho Hv Ht. unfold resize.
  now rewrite (bind_ok _ _ _ _ _ (getattr_set _ _ _ _ _ _ Ho Hv)), Ht.
Qed.

(** C5: for every RenderBuffer whose resizeable flag is false, and every
    shape (and format) argument, [resize] raises the RuntimeError for a buffer
    that is not resizeable (the spec's ImmutableResourceError), and the state,
    hence the stored shape, is what it was before the call. *)
Theorem resize_not_resizeable self shape format w o :
  heap w !! self = Some o ->
  _resizeable o = Some (PyBool false) ->
  outcome (resize self shape format w) = inl (RuntimeError "Buffer is not resizeable") /\
  after (resize self shape format w) = w /\
  RenderBuffer.shape self (after (resize self shape format w)) = RenderBuffer.shape self w.
Proof.
  intros Ho Hv.
  rewrite (resize_refused _ shape format _ _ _ Ho Hv eq_refl).
  cbn [outcome after fst snd]. auto.
Qed.

(** C10: whenever [resize] raises, for whichever reason (buffer not
    resizeable, shape not a tuple of 2 or 3 elements, format string not among
    color, depth and stencil, format omitted and none stored), the state after
    the call is the state before it: stored shape and stored format are
    unchanged and no SIZE command was queued.  The exception is one of those
    that validation raises. *)
Theorem resize_failure_atomic self shape format w e w' :
  resize self shape format w = (inl e, w') ->
  w' = w /\
  heap w' !! self = heap w !! self /\
  glir w' = glir w /\
  In e resize_errors.
Proof.
  intros H.
  destruct (resize_cases self shape format w) as [(e1 & Hin & He) | (o & v & f & _ & _ & _ & _ & _ & Hr)].
  - rewrite He in H. inversion H; subst. auto.
  - rewrite Hr in H. discriminate.
Qed.

End RenderBufferFacts.

(** ** Resizing an attached object *)

Module AttachmentFacts.
Import RenderBufferFacts.

Lemma check_format_None_inv self w f w' :
  RenderBuffer.check_format self PyNone w = (inr f, w') ->
  exists o, heap w !! self = Some o /\ _format o = Some f.
Proof.
  unfold RenderBuffer.check_format. cbn [is_None]. intros H.
  apply bind_inv_ok in H as (x & w1 & Hg & H).
  apply getattr_inv_ok in Hg as (-> & r & o & Hr & Ho & Hf).
  inversion Hr; subst r.
  destruct (is_None x); [discriminate |]. inversion H; subst.
  now exists o.
Qed.

Lemma RenderBuffer_resize_resized self shape w w' o :
  heap w !! self = Some o ->
  class_ o <> cls_Texture2D ->
  RenderBuffer.resize self shape PyNone w = (inr tt, w') ->
  resized self shape w w'.
Proof.
  intros Ho Hc H.
  destruct (resize_cases self shape PyNone w)
    as [(e & _ & He) | (o1 & v & f & Ho1 & _ & _ & _ & Hf & Hr)].
  { rewrite He in H. discriminate. }
  rewrite Hr in H. inversion H; subst w'. clear H.
  rewrite Ho in Ho1. inversion Ho1; subst o1.
  apply check_format_None_inv in Hf as (o2 & Ho2 & Hf).
  rewrite Ho in Ho2. inversion Ho2; subst o2.
  assert (Hk : kept (class_ o) shape = shape) by (destruct (class_ o); easy).
  exists o, f. rewrite Hk. repeat split.
  - assumption.
  - assumption.
  - now apply stored_lookup.
  - intros r' Hne. now apply stored_lookup_ne.
  - now apply stored_glir.
Qed.

Lemma Texture2D_resize_cases self shape w o :
  heap w !! self = Some o ->
  class_ o = cls_Texture2D ->
  (exists e, Texture2D.resize self shape PyNone w = (inl e, w)) \/
  (exists w', Texture2D.resize self shape PyNone w = (inr tt, w') /\ resized self shape w w').
Proof.
  intros Ho Hc. unfold Texture2D.resize.
  rewrite (bind_ok _ _ _ _ _ (deref_ok _ _ _ Ho)).
  destruct (_resizeable o) as [[| [|] | | | | | |] |]; try (left; eexists; reflexivity).
  destruct (RenderBuffer.shape_ok shape); [| left; eexists; reflexivity].
  cbn [negb is_None].
  destruct (_format o) as [f |] eqn:Hf; [| left; eexists; reflexivity].
  assert (Hd : is_None f = true \/ is_None f = false) by (destruct (is_None f); auto).
  destruct Hd as [Hn | Hn].
  { destruct f; try discriminate. left; eexists; reflexivity. }
  right. eexists. split.
  - destruct f; try discriminate; reflexivity.
  - exists o, f. rewrite Hc. cbn [kept heap glir _idcount].
    repeat split; try assumption.
    + now rewrite lookup_alter_eq, Ho.
    + intros r' Hne. now rewrite lookup_alter_ne by congruence.
Qed.

(** [buffer.resize(shape)] either raises in the state it was called in, or
    resizes the receiver. *)
Lemma send_resize_cases r shape w :
  (exists e, send_resize (PyObj r) shape w = (inl e, w)) \/
  (exists w', send_resize (PyObj r) shape w = (inr tt, w') /\ resized r shape w w').
Proof.
  unfold send_resize.
  destruct (heap w !! r) as [o |] eqn:Ho.
  2:{ left. eexists. unfold bind, deref. rewrite Ho. reflexivity. }
  rewrite (bind_ok _ _ _ _ _ (deref_ok _ _ _ Ho)).
  destruct (class_ o) eqn:Hc;
    try (destruct (resize_cases r shape PyNone w) as [(e & _ & He) | (o1 & v & f & _ & _ & _ & _ & _ & Hr)];
         [ left; exists e; exact He
         | right; eexists; split; [exact Hr |];
           eapply RenderBuffer_resize_resized; [exact Ho | rewrite Hc; discriminate | exact Hr] ]).
  - now apply Texture2D_resize_cases with (o := o).
  - left. eexists. reflexivity.
Qed.

Lemma evolves_refl shape o : evolves shape o o.
Proof. unfold evolves. tauto. Qed.

Lemma evolves_trans shape o1 o2 o3 :
  evolves shape o1 o2 -> evolves shape o2 o3 -> evolves shape o1 o3.
Proof.
  unfold evolves, at_size.
  intros (Hc & Hi & Hr & Hf & H1 & H2 & H3 & Hs) (Hc' & Hi' & Hr' & Hf' & H1' & H2' & H3' & Hs').
  repeat split; try congruence.
  destruct Hs' as [Hs' | Hs']; [| now right].
  destruct Hs as [Hs | Hs]; [left; congruence | right; congruence].
Qed.

Lemma evolves_at_size shape o o' : at_size shape o -> evolves shape o o' -> at_size shape o'.
Proof.
  unfold evolves, at_size. intros H (Hc & _ & _ & _ & _ & _ & _ & [Hs | Hs]); congruence.
Qed.

(** One resize, seen from any instance of the store. *)
Lemma resized_evolves r shape w w' r0 o0 :
  resized r shape w w' -> heap w !! r0 = Some o0 ->
  exists o0', heap w' !! r0 = Some o0' /\ evolves shape o0 o0' /\
              (r0 = r -> at_size shape o0').
Proof.
  intros (o & f & Ho & Hf & Hl & Hne & _) H0.
  destruct (decide (r0 = r)) as [-> | Hd].
  - rewrite Ho in H0. inversion H0; subst o0.
    eexists. split; [exact Hl |].
    split; [| intros _; reflexivity].
    unfold evolves, at_size. cbn. rewrite Hf. tauto.
  - exists o0. split; [now rewrite Hne |].
    split; [apply evolves_refl | contradiction].
Qed.

Lemma resized_frame r shape w w' r0 :
  resized r shape w w' -> r0 <> r -> heap w' !! r0 = heap w !! r0.
Proof. intros (o & f & _ & _ & _ & Hne & _) Hd. now apply Hne. Qed.

Lemma resized_size_command r shape w w' r0 :
  resized r shape w w' -> size_command w' shape r0 = size_command w shape r0.
Proof.
  intros H. unfold size_command.
  destruct (decide (r0 = r)) as [-> | Hd].
  - destruct H as (o & f & Ho & Hf & Hl & _). rewrite Ho, Hl. cbn. now rewrite Hf.
  - now rewrite (resized_frame _ _ _ _ _ H Hd).
Qed.

Lemma resized_glir r shape w w' :
  resized r shape w w' -> glir w' = (glir w ++ [size_command w shape r])%list.
Proof.
  intros (o & f & Ho & Hf & _ & _ & Hg & _). unfold size_command.
  rewrite Ho, Hf. exact Hg.
Qed.

(** Forwarding over a list that succeeds: every instance evolves, the ones
    outside the list are untouched, the ones in it are at the new size, and
    the SIZE commands are queued in the order of the list. *)
Lemma forward_ok shape l : forall w w',
  forward shape l w = (inr tt, w') ->
  (forall r0 o0, heap w !! r0 = Some o0 ->
     exists o0', heap w' !! r0 = Some o0' /\ evolves shape o0 o0') /\
  (forall r0, r0 ∉ l -> heap w' !! r0 = heap w !! r0) /\
  (forall r0, r0 ∈ l -> exists o0 o0', heap w !! r0 = Some o0 /\ heap w' !! r0 = Some o0' /\
                                       at_size shape o0' /\ _format o0' = _format o0) /\
  glir w' = (glir w ++ map (size_command w shape) l)%list.
Proof.
  induction l as [| r l IH]; intros w w' H.
  - inversion H; subst w'. repeat split.
    + intros r0 o0 H0. exists o0. split; [assumption | apply evolves_refl].
    + intros r0 Hin. inversion Hin.
    + cbn. now rewrite app_nil_r.
  - cbn [forward] in H. apply bind_inv_ok in H as ([] & w1 & Hs & H).
    destruct (send_resize_cases r shape w) as [(e & He) | (w1' & Hs' & Hres)];
      [rewrite He in Hs; discriminate |].
    rewrite Hs' in Hs. inversion Hs; subst w1'. clear Hs.
    destruct (IH _ _ H) as (IHe & IHf & IHs & IHg).
    assert (Hev : forall r0 o0, heap w !! r0 = Some o0 ->
              exists o0', heap w' !! r0 = Some o0' /\ evolves shape o0 o0' /\
                          (r0 = r -> at_size shape o0')).
    { intros r0 o0 H0.
      destruct (resized_evolves _ _ _ _ _ _ Hres H0) as (o1 & H1 & Hev1 & Hat).
      destruct (IHe _ _ H1) as (o2 & H2 & Hev2).
      exists o2. split; [assumption |]. split; [eapply evolves_trans; eassumption |].
      intros Heq. eapply evolves_at_size; [apply Hat; assumption | assumption]. }
    repeat split.
    + intros r0 o0 H0. destruct (Hev _ _ H0) as (o2 & H2 & He2 & _). eauto.
    + intros r0 Hin. apply not_elem_of_cons in Hin as [Hne Hin].
      rewrite (IHf _ Hin). now apply (resized_frame _ _ _ _ _ Hres).
    + intros r0 Hin. apply elem_of_cons in Hin as [-> | Hin].
      * destruct Hres as (o & f & Ho & Hres').
        destruct (Hev _ _ Ho) as (o2 & H2 & He2 & Hat).
        exists o, o2. repeat split; try assumption; [now apply Hat |].
        now destruct He2 as (_ & _ & _ & Hf & _).
      * destruct (IHs _ Hin) as (o1 & o2 & H1 & H2 & Hat & Hf).
        destruct (heap w !! r0) as [o0 |] eqn:H0.
        -- destruct (resized_evolves _ _ _ _ _ _ Hres H0) as (o1' & H1' & He1 & _).
           rewrite H1 in H1'. inversion H1'; subst o1'.
           exists o0, o2. repeat split; try assumption.
           destruct He1 as (_ & _ & _ & Hf1 & _). congruence.
        -- destruct (decide (r0 = r)) as [-> | Hd].
           ++ destruct Hres as (o & f & Ho & _). congruence.
           ++ rewrite (resized_frame _ _ _ _ _ Hres Hd) in H1. congruence.
    + rewrite IHg, (resized_glir _ _ _ _ Hres). cbn [map].
      rewrite <- app_assoc. cbn [app]. do 2 f_equal.
      apply map_ext. intros r0. exact (resized_size_command _ _ _ _ r0 Hres).
Qed.

(** Forwarding that raises: the list splits at the object whose [resize]
    raised, the objects before it were resized, and the state is the one
    their resizes left. *)
Lemma forward_raise shape l : forall w e w',
  forward shape l w = (inl e, w') ->
  exists l1 r l2, l = (l1 ++ r :: l2)%list /\
    forward shape l1 w = (inr tt, w') /\
    send_resize (PyObj r) shape w' = (inl e, w').
Proof.
  induction l as [| r l IH]; intros w e w' H.
  - discriminate.
  - cbn [forward] in H.
    destruct (send_resize_cases r shape w) as [(e1 & He) | (w1 & Hs & Hres)].
    + rewrite (bind_raise _ _ _ _ _ He) in H. inversion H; subst e1 w'.
      exists [], r, l. repeat split. assumption.
    + rewrite (bind_ok _ _ _ _ _ Hs) in H.
      destruct (IH _ _ _ H) as (l1 & r' & l2 & -> & Hf & Hr).
      exists (r :: l1), r', l2. repeat split; [| assumption].
      cbn [forward]. now rewrite (bind_ok _ _ _ _ _ Hs).
Qed.

End AttachmentFacts.

(** ** FrameBuffer.resize *)

Module FrameBufferResize.
Import AttachmentFacts.

Lemma bind_ret_tt (m : M unit) w : bind m (fun _ => ret tt) w = m w.
Proof. unfold bind, ret. destruct (m w) as [[e | []] w1]; reflexivity. Qed.

Lemma resized_slots r shape w w' self c d s :
  resized r shape w w' -> slots_at self c d s w -> slots_at self c d s w'.
Proof.
  intros Hres (fb & Ho & Hc & Hd & Hs).
  destruct (resized_evolves _ _ _ _ _ _ Hres Ho) as (fb' & Ho' & Hev & _).
  destruct Hev as (_ & _ & _ & _ & H1 & H2 & H3 & _).
  exists fb'. split; [assumption |]. unfold holds. repeat split; congruence.
Qed.

(** One [if self.x_buffer is not None: self.x_buffer.resize(shape)]. *)
Lemma stage_present (get : M value) (rest rest' : M unit) r shape w :
  get w = (inr (PyObj r), w) ->
  (forall w', resized r shape w w' -> rest w' = rest' w') ->
  (let* x := get in
   let* _ := (if negb (is_None x) then send_resize x shape else ret tt) in rest) w
  = (let* _ := send_resize (PyObj r) shape in rest') w.
Proof.
  intros Hg Hrest. rewrite (bind_ok _ _ _ _ _ Hg). cbn [is_None negb].
  destruct (send_resize_cases r shape w) as [(e & He) | (w1 & Hs & Hres)].
  - now rewrite !(bind_raise _ _ _ _ _ He).
  - rewrite !(bind_ok _ _ _ _ _ Hs). now apply Hrest.
Qed.

Lemma stage_empty (get : M value) (rest : M unit) shape w :
  get w = (inr PyNone, w) ->
  (let* x := get in
   let* _ := (if negb (is_None x) then send_resize x shape else ret tt) in rest) w
  = rest w.
Proof. intros Hg. rewrite (bind_ok _ _ _ _ _ Hg). reflexivity. Qed.

Lemma stencil_stage self shape c d s w :
  slots_at self c d s w ->
  (let* x := FrameBuffer.stencil_buffer self in
   if negb (is_None x) then send_resize x shape else ret tt) w
  = forward shape (omap id [s]) w.
Proof.
  intros (fb & Ho & _ & _ & Hs).
  rewrite (bind_ok _ _ _ _ _ (getattr_set _ "_stencil_buffer" _ _ _ _ Ho Hs)).
  destruct s as [r |]; cbn; [| reflexivity].
  now rewrite bind_ret_tt.
Qed.

Lemma depth_stage self shape c d s w :
  slots_at self c d s w ->
  (let* x := FrameBuffer.depth_buffer self in
   let* _ := (if negb (is_None x) then send_resize x shape else ret tt) in
   let* x := FrameBuffer.stencil_buffer self in
   if negb (is_None x) then send_resize x shape else ret tt) w
  = forward shape (omap id [d; s]) w.
Proof.
  intros Hsl. pose proof Hsl as (fb & Ho & _ & Hd & _).
  pose proof (getattr_set _ "_depth_buffer" _ _ _ _ Ho Hd) as Hg.
  destruct d as [r |].
  - change (omap id [Some r; s]) with (r :: omap id [s]). cbn [forward].
    apply stage_present; [exact Hg |].
    intros w' Hres. eapply stencil_stage, resized_slots; eassumption.
  - change (omap id [None; s]) with (omap id [s]).
    rewrite stage_empty by exact Hg. eapply stencil_stage; eassumption.
Qed.

Lemma color_stage self shape c d s w :
  slots_at self c d s w ->
  (let* x := FrameBuffer.color_buffer self in
   let* _ := (if negb (is_None x) then send_resize x shape else ret tt) in
   let* x := FrameBuffer.depth_buffer self in
   let* _ := (if negb (is_None x) then send_resize x shape else ret tt) in
   let* x := FrameBuffer.stencil_buffer self in
   if negb (is_None x) then send_resize x shape else ret tt) w
  = forward shape (present c d s) w.
Proof.
  intros Hsl. pose proof Hsl as (fb & Ho & Hc & _ & _).
  pose proof (getattr_set _ "_color_buffer" _ _ _ _ Ho Hc) as Hg.
  unfold present. destruct c as [r |].
  - change (omap id [Some r; d; s]) with (r :: omap id [d; s]). cbn [forward].
    apply stage_present; [exact Hg |].
    intros w' Hres. eapply depth_stage, resized_slots; eassumption.
  - change (omap id [None; d; s]) with (omap id [d; s]).
    rewrite stage_empty by exact Hg. eapply depth_stage; eassumption.
Qed.

(** A resizeable FrameBuffer given a valid shape sends [resize(shape)] to
    its attachments in the order color, depth, stencil. *)
Lemma resize_is_forward self shape w fb v c d s :
  heap w !! self = Some fb ->
  _resizeable fb = Some v -> truthy v = true ->
  RenderBuffer.shape_ok shape = true ->
  holds fb c d s ->
  FrameBuffer.resize self shape w = forward shape (present c d s) w.
Proof.
  intros Ho Hv Ht Hs Hh. unfold FrameBuffer.resize.
  rewrite (bind_ok _ _ _ _ _ (getattr_set _ _ _ _ _ _ Ho Hv)), Ht, Hs. cbn [negb].
  apply color_stage. now exists fb.
Qed.

(** C7: [FrameBuffer.resize] raises when the FrameBuffer is not resizeable
    and when the shape is not a tuple of 2 or 3 elements, in both cases
    before anything is resized.  Otherwise it sends [resize(shape)] to every
    attached object in the order color, depth, stencil.  When it returns,
    every attachment stores the new shape and has kept its own format, and
    the SIZE commands are queued in that order.  When the [resize] of one
    attachment raises, [FrameBuffer.resize] raises that exception; the
    attachments before it are at the new size, and the failing one and those
    after it are as they were (unless one of them is also an earlier
    attachment). *)
Theorem resize_forwards_in_order self shape w fb v c d s :
  heap w !! self = Some fb ->
  _resizeable fb = Some v ->
  holds fb c d s ->
  (truthy v = false ->
     FrameBuffer.resize self shape w =
       (inl (RuntimeError "FrameBuffer is not resizeable"), w)) /\
  (truthy v = true -> RenderBuffer.shape_ok shape = false ->
     FrameBuffer.resize self shape w =
       (inl (ValueError "RenderBuffer shape must be a 2/3 element tuple"), w)) /\
  (truthy v = true -> RenderBuffer.shape_ok shape = true ->
     FrameBuffer.resize self shape w = forward shape (present c d s) w /\
     (forall w', FrameBuffer.resize self shape w = (inr tt, w') ->
        (forall r, r ∈ present c d s ->
           exists o o', heap w !! r = Some o /\ heap w' !! r = Some o' /\
                        at_size shape o' /\ _format o' = _format o) /\
        glir w' = (glir w ++ map (size_command w shape) (present c d s))%list) /\
     (forall e w', FrameBuffer.resize self shape w = (inl e, w') ->
        exists l1 r l2,
          present c d s = (l1 ++ r :: l2)%list /\
          send_resize (PyObj r) shape w' = (inl e, w') /\
          (forall r1, r1 ∈ l1 ->
             exists o o', heap w !! r1 = Some o /\ heap w' !! r1 = Some o' /\
                          at_size shape o' /\ _format o' = _format o) /\
          (forall r2, r2 ∈ r :: l2 -> r2 ∉ l1 -> heap w' !! r2 = heap w !! r2) /\
          glir w' = (glir w ++ map (size_command w shape) l1)%list)).
Proof.
  intros Ho Hv Hh. split; [| split].
  - intros Ht. unfold FrameBuffer.resize.
    now rewrite (bind_ok _ _ _ _ _ (getattr_set _ _ _ _ _ _ Ho Hv)), Ht.
  - intros Ht Hs. unfold FrameBuffer.resize.
    now rewrite (bind_ok _ _ _ _ _ (getattr_set _ _ _ _ _ _ Ho Hv)), Ht, Hs.
  - intros Ht Hs.
    pose proof (resize_is_forward _ _ _ _ _ _ _ _ Ho Hv Ht Hs Hh) as Heq.
    split; [exact Heq |]. rewrite Heq. split.
    + intros w' H. destruct (forward_ok _ _ _ _ H) as (_ & _ & Hin & Hg). auto.
    + intros e w' H.
      destruct (forward_raise _ _ _ _ _ H) as (l1 & r & l2 & Hl & Hf & Hr).
      destruct (forward_ok _ _ _ _ Hf) as (_ & Hfr & Hin & Hg).
      exists l1, r, l2. repeat split; try assumption.
      intros r2 _ Hn. now apply Hfr.
Qed.

End FrameBufferResize.

(** ** FrameBuffer: the shape query, the slot setters and readback *)

Module FrameBufferFacts.

Lemma send_shape_ok w r sh : is_buffer w r sh -> send_shape (PyObj r) w = (inr sh, w).
Proof.
  intros (o & Ho & Hc & Hs). unfold send_shape.
  rewrite (bind_ok _ _ _ _ _ (deref_ok _ _ _ Ho)).
  destruct (class_ o); try contradiction;
    (eapply getattr_set; [exact Ho | exact Hs]).
Qed.

(** C4: [FrameBuffer.shape] returns the shape of the color attachment when
    there is one, else that of the depth attachment, else that of the stencil
    attachment, and raises the RuntimeError for a FrameBuffer without buffers
    (the spec's UndefinedShapeError) when the three slots are empty; the
    eight combinations of attached and empty slots are the cases of the
    match.  The query leaves the state as it is. *)
Theorem shape_priority self w fb (c d s : option (ref * value)) :
  heap w !! self = Some fb ->
  holds fb (fst <$> c) (fst <$> d) (fst <$> s) ->
  attached_ok w c -> attached_ok w d -> attached_ok w s ->
  FrameBuffer.shape self w =
    (match c, d, s with
     | Some (_, sh), _, _ => inr sh
     | None, Some (_, sh), _ => inr sh
     | None, None, Some (_, sh) => inr sh
     | None, None, None =>
         inl (RuntimeError "FrameBuffer without buffers has undefined shape")
     end, w).
Proof.
  intros Ho (Hc & Hd & Hs) Oc Od Os. unfold FrameBuffer.shape.
  rewrite (bind_ok _ _ _ _ _ (getattr_set _ "_color_buffer" _ _ _ _ Ho Hc)).
  destruct c as [[rc shc] |]; cbn [fmap option_fmap option_map fst slot is_None negb].
  { now apply send_shape_ok. }
  rewrite (bind_ok _ _ _ _ _ (getattr_set _ "_depth_buffer" _ _ _ _ Ho Hd)).
  destruct d as [[rd shd] |]; cbn [fmap option_fmap option_map fst slot is_None negb].
  { now apply send_shape_ok. }
  rewrite (bind_ok _ _ _ _ _ (getattr_set _ "_stencil_buffer" _ _ _ _ Ho Hs)).
  destruct s as [[rs shs] |]; cbn [fmap option_fmap option_map fst slot is_None negb].
  { now apply send_shape_ok. }
  reflexivity.
Qed.

End FrameBufferFacts.

(** ** What every call preserves *)

Module FrameFacts.

Lemma same_flag_refl o : same_flag o o.
Proof. unfold same_flag. tauto. Qed.

Lemma extends_refl w : extends w w.
Proof. intros r o H. exists o. split; [assumption | apply same_flag_refl]. Qed.

Lemma extends_trans w1 w2 w3 : extends w1 w2 -> extends w2 w3 -> extends w1 w3.
Proof.
  intros H12 H23 r o H.
  destruct (H12 _ _ H) as (o2 & H2 & (Hc & Hi & Hr)).
  destruct (H23 _ _ H2) as (o3 & H3 & (Hc' & Hi' & Hr')).
  exists o3. split; [assumption |]. unfold same_flag. repeat split; congruence.
Qed.

Lemma frame_ret {A} (a : A) : frame (ret a).
Proof. intros w. apply extends_refl. Qed.

Lemma frame_raise {A} (e : exn) : frame (@raise A e).
Proof. intros w. apply extends_refl. Qed.

Lemma frame_bind {A B} (m : M A) (k : A -> M B) :
  frame m -> (forall a, frame (k a)) -> frame (bind m k).
Proof.
  intros Hm Hk w. unfold bind. specialize (Hm w).
  destruct (m w) as [[e | a] w1]; cbn [after snd] in *.
  - exact Hm.
  - eapply extends_trans; [exact Hm | apply Hk].
Qed.

Lemma frame_getattr f name v : frame (getattr f name v).
Proof.
  intros w. destruct (getattr f name v w) as [res w'] eqn:H.
  apply getattr_pure in H. subst. apply extends_refl.
Qed.

Lemma frame_deref r : frame (deref r).
Proof. intros w. unfold deref. destruct (heap w !! r); apply extends_refl. Qed.

Lemma frame_isinstance v cs : frame (isinstance v cs).
Proof.
  intros w. unfold isinstance.
  destruct v; try apply extends_refl. destruct (heap w !! r); apply extends_refl.
Qed.

Lemma frame_glir_command c : frame (glir_command c).
Proof. intros w r o H. exists o. split; [exact H | apply same_flag_refl]. Qed.

(** Assignments to the shape, the format and the slots leave class, id and
    flag alone. *)
Lemma frame_mutate r g :
  (forall o, same_flag o (g o)) -> frame (mutate r g).
Proof.
  intros Hg w r0 o H. cbn [mutate after snd heap].
  destruct (decide (r0 = r)) as [-> | Hne].
  - exists (g o). split; [now rewrite lookup_alter_eq, H | apply Hg].
  - exists o. split; [now rewrite lookup_alter_ne by congruence | apply same_flag_refl].
Qed.

(** The flag of an instance allocated within the computation may be assigned:
    it is not an instance of the state before. *)
Lemma extends_mutate_new w w1 r g :
  heap w !! r = None -> extends w w1 ->
  extends w (mk_world (alter g r (heap w1)) (glir w1) (_idcount w1)).
Proof.
  intros Hnew Hext r0 o H.
  destruct (Hext _ _ H) as (o1 & H1 & Hs).
  exists o1. split; [| exact Hs]. cbn [heap].
  rewrite lookup_alter_ne; [exact H1 |]. intros ->. congruence.
Qed.

Lemma GLObject_init_new c w self w1 :
  GLObject.__init__ c w = (inr self, w1) ->
  heap w !! self = None /\ extends w w1 /\
  heap w1 !! self = Some (mk_pyobject c (_idcount w + 1) None None None None None None).
Proof.
  unfold GLObject.__init__. intros H. inversion H; subst. clear H.
  assert (Hnew : heap w !! fresh (dom (heap w)) = None).
  { apply not_elem_of_dom. apply is_fresh. }
  split; [exact Hnew |]. split.
  - intros r o Ho. exists o. split; [| apply same_flag_refl]. cbn [heap].
    rewrite lookup_insert_ne; [exact Ho |]. intros Heq. rewrite Heq in Hnew. congruence.
  - cbn [heap]. apply lookup_insert_eq.
Qed.

Lemma frame_GLObject_init c : frame (GLObject.__init__ c).
Proof.
  intros w. destruct (GLObject.__init__ c w) as [[e | self] w1] eqn:H.
  - discriminate.
  - now apply GLObject_init_new in H.
Qed.

Ltac flag_preserved := intros ?; unfold same_flag; cbn; tauto.

Ltac frame_step :=
  first
    [ apply frame_ret | apply frame_raise | apply frame_getattr | apply frame_deref
    | apply frame_isinstance | apply frame_glir_command
    | apply frame_mutate; flag_preserved
    | apply frame_bind; [| intros ?] ].

Lemma frame_check_format self format : frame (RenderBuffer.check_format self format).
Proof.
  intros w. destruct (RenderBuffer.check_format self format w) as [res w'] eqn:H.
  apply RenderBufferFacts.check_format_pure in H. subst. apply extends_refl.
Qed.

Lemma frame_RenderBuffer_resize self shape format :
  frame (RenderBuffer.resize self shape format).
Proof.
  unfold RenderBuffer.resize. apply frame_bind; [frame_step | intros v].
  destruct (negb (truthy v)); [frame_step |].
  destruct (negb (RenderBuffer.shape_ok shape)); [frame_step |].
  apply frame_bind; [apply frame_check_format | intros f].
  repeat frame_step.
Qed.

Lemma frame_Texture2D_resize self shape format :
  frame (Texture2D.resize self shape format).
Proof.
  unfold Texture2D.resize. apply frame_bind; [frame_step | intros o].
  destruct (_resizeable o) as [[| [|] | | | | | |] |]; try frame_step.
  destruct (negb (RenderBuffer.shape_ok shape)); [frame_step |].
  apply frame_bind; [| intros f; repeat frame_step].
  destruct (is_None format); [| frame_step].
  destruct (_format o) as [[] |]; frame_step.
Qed.

Lemma frame_send_resize v shape : frame (send_resize v shape).
Proof.
  unfold send_resize. destruct v; try apply frame_raise.
  apply frame_bind; [frame_step | intros o].
  destruct (class_ o);
    first [apply frame_RenderBuffer_resize | apply frame_Texture2D_resize | frame_step].
Qed.

Lemma frame_send_shape v : frame (send_shape v).
Proof.
  unfold send_shape. destruct v; try apply frame_raise.
  apply frame_bind; [frame_step | intros o].
  destruct (class_ o); first [apply frame_getattr | frame_step].
Qed.

Lemma frame_set_color_buffer self buffer : frame (FrameBuffer.set_color_buffer self buffer).
Proof.
  unfold FrameBuffer.set_color_buffer, FrameBuffer.id_or_0, GLObject.id.
  apply frame_bind; [frame_step | intros b].
  destruct (b || is_None buffer); [| frame_step].
  apply frame_bind; [frame_step | intros _].
  apply frame_bind; [| intros; repeat frame_step].
  destruct (truthy buffer); [| frame_step]. destruct buffer; repeat frame_step.
Qed.

Lemma frame_set_depth_buffer self buffer : frame (FrameBuffer.set_depth_buffer self buffer).
Proof.
  unfold FrameBuffer.set_depth_buffer, FrameBuffer.id_or_0, GLObject.id.
  apply frame_bind; [frame_step | intros b].
  destruct (b || is_None buffer); [| frame_step].
  apply frame_bind; [frame_step | intros _].
  apply frame_bind; [| intros; repeat frame_step].
  destruct (truthy buffer); [| frame_step]. destruct buffer; repeat frame_step.
Qed.

Lemma frame_set_stencil_buffer self buffer :
  frame (FrameBuffer.set_stencil_buffer self buffer).
Proof.
  unfold FrameBuffer.set_stencil_buffer, FrameBuffer.id_or_0, GLObject.id.
  apply frame_bind; [frame_step | intros b].
  destruct (b || is_None buffer); [| frame_step].
  apply frame_bind; [frame_step | intros _].
  apply frame_bind; [| intros; repeat frame_step].
  destruct (truthy buffer); [| frame_step]. destruct buffer; repeat frame_step.
Qed.

Lemma frame_forward_if v shape :
  frame (if negb (is_None v) then send_resize v shape else ret tt).
Proof. destruct (negb (is_None v)); [apply frame_send_resize | frame_step]. Qed.

Lemma frame_FrameBuffer_resize self shape : frame (FrameBuffer.resize self shape).
Proof.
  unfold FrameBuffer.resize, FrameBuffer.color_buffer, FrameBuffer.depth_buffer,
    FrameBuffer.stencil_buffer.
  apply frame_bind; [frame_step | intros v].
  destruct (negb (truthy v)); [frame_step |].
  destruct (negb (RenderBuffer.shape_ok shape)); [frame_step |].
  repeat (apply frame_bind; [first [apply frame_getattr | apply frame_forward_if] | intros ?]).
  apply frame_forward_if.
Qed.

Lemma frame_FrameBuffer_shape self : frame (FrameBuffer.shape self).
Proof.
  unfold FrameBuffer.shape, FrameBuffer.color_buffer, FrameBuffer.depth_buffer,
    FrameBuffer.stencil_buffer.
  apply frame_bind; [frame_step | intros c].
  destruct (negb (is_None c)); [apply frame_send_shape |].
  apply frame_bind; [frame_step | intros d].
  destruct (negb (is_None d)); [apply frame_send_shape |].
  apply frame_bind; [frame_step | intros s].
  destruct (negb (is_None s)); [apply frame_send_shape | frame_step].
Qed.

Lemma frame_unpack2 v : frame (unpack2 v).
Proof.
  intros w. unfold unpack2.
  destruct v as [| | | | s | l | l |]; try apply extends_refl.
  - destruct s as [| a [| b [| c s]]]; apply extends_refl.
  - destruct l as [| a [| b [| c l]]]; apply extends_refl.
  - destruct l as [| a [| b [| c l]]]; apply extends_refl.
Qed.

Lemma frame_FrameBuffer_read self mode alpha : frame (FrameBuffer.read self mode alpha).
Proof.
  unfold FrameBuffer.read.
  apply frame_bind; [| intros _].
  { unfold wrappers._check_valid. destruct mode; try frame_step.
    destruct (existsb _ _); frame_step. }
  apply frame_bind; [| intros buffer].
  { unfold FrameBuffer.mode_buffer. destruct mode; try frame_step.
    repeat (match goal with |- frame (if ?b then _ else _) => destruct b end;
            [apply frame_getattr |]).
    frame_step. }
  apply frame_bind; [frame_step | intros sh].
  apply frame_bind; [apply frame_unpack2 | intros [h w]].
  unfold wrappers.read_pixels. apply frame_ret.
Qed.

(** Constructors. *)
Lemma grows_of_frame {A} w (m : M A) : frame m -> grows w m.
Proof. intros Hm w1 H1. eapply extends_trans; [exact H1 | apply Hm]. Qed.

Lemma grows_bind {A B} w (m : M A) (k : A -> M B) :
  grows w m -> (forall a, grows w (k a)) -> grows w (bind m k).
Proof.
  intros Hm Hk w1 H1. unfold bind. specialize (Hm w1 H1).
  destruct (m w1) as [[e | a] w2]; cbn [after snd] in *.
  - exact Hm.
  - now apply Hk.
Qed.

Lemma grows_mutate_new w self g : heap w !! self = None -> grows w (mutate self g).
Proof. intros Hnew w1 H1. now apply extends_mutate_new. Qed.

Lemma frame_new {A} c (body : ref -> M A) :
  (forall w self, heap w !! self = None -> grows w (body self)) ->
  frame (bind (GLObject.__init__ c) body).
Proof.
  intros Hb w. unfold bind.
  destruct (GLObject.__init__ c w) as [[e | self] w1] eqn:H; [discriminate |].
  apply GLObject_init_new in H as (Hnew & Hext & _).
  now apply Hb.
Qed.

Ltac grows_frame := apply grows_of_frame.

Lemma frame_RenderBuffer_init c shape format resizeable :
  frame (RenderBuffer.__init__ c shape format resizeable).
Proof.
  unfold RenderBuffer.__init__. apply frame_new. intros w self Hnew.
  apply grows_bind; [now apply grows_mutate_new | intros _].
  grows_frame. apply frame_bind; [apply frame_RenderBuffer_resize | intros _; frame_step].
Qed.

Lemma frame_Texture2D_init shape format resizeable :
  frame (Texture2D.__init__ shape format resizeable).
Proof.
  unfold Texture2D.__init__. apply frame_new. intros w self Hnew.
  destruct (negb (RenderBuffer.shape_ok shape)); [grows_frame; frame_step |].
  destruct (is_None format); [grows_frame; frame_step |].
  apply grows_bind; [now apply grows_mutate_new | intros _].
  grows_frame. repeat frame_step.
Qed.

Lemma frame_FrameBuffer_init color depth stencil resizeable :
  frame (FrameBuffer.__init__ color depth stencil resizeable).
Proof.
  unfold FrameBuffer.__init__. apply frame_new. intros w self Hnew.
  do 5 (apply grows_bind; [now apply grows_mutate_new | intros _]).
  grows_frame.
  apply frame_bind; [| intros _].
  { destruct (negb (is_None color)); [apply frame_set_color_buffer | frame_step]. }
  apply frame_bind; [| intros _].
  { destruct (negb (is_None depth)); [apply frame_set_depth_buffer | frame_step]. }
  apply frame_bind; [| intros _; frame_step].
  destruct (negb (is_None stencil)); [apply frame_set_stencil_buffer | frame_step].
Qed.

(** No call of the API changes the class, the id or the resizeable flag of
    an instance that exists when it is made. *)
Lemma run_extends c w : extends w (run c w).
Proof.
  destruct c; cbn [run].
  - apply frame_RenderBuffer_init.
  - apply frame_Texture2D_init.
  - apply frame_FrameBuffer_init.
  - apply frame_RenderBuffer_resize.
  - apply frame_getattr.
  - apply frame_getattr.
  - apply frame_Texture2D_resize.
  - apply frame_set_color_buffer.
  - apply frame_set_depth_buffer.
  - apply frame_set_stencil_buffer.
  - apply frame_getattr.
  - apply frame_getattr.
  - apply frame_getattr.
  - apply frame_FrameBuffer_shape.
  - apply frame_FrameBuffer_resize.
  - apply frame_FrameBuffer_read.
Qed.

Lemma run_all_extends cs : forall w, extends w (run_all cs w).
Proof.
  induction cs as [| c cs IH]; intros w; cbn [run_all fold_left].
  - apply extends_refl.
  - eapply extends_trans; [apply run_extends | apply IH].
Qed.

End FrameFacts.

(** ** Construction of a RenderBuffer *)

Module ConstructorFacts.
Import RenderBufferFacts FrameFacts.

Lemma init_steps c shape format resizeable w :
  RenderBuffer.__init__ c shape format resizeable w =
  (let* _ := RenderBuffer.resize (new_self w) shape format in ret (new_self w))
    (at_first_resize c resizeable w).
Proof. reflexivity. Qed.

Lemma at_first_resize_lookup c resizeable w :
  heap (at_first_resize c resizeable w) !! new_self w =
  Some (mk_pyobject c (_idcount w + 1) (Some (PyBool (truthy resizeable)))
          None None None None None).
Proof.
  unfold at_first_resize. cbn [heap].
  now rewrite lookup_alter_eq, lookup_insert_eq.
Qed.

(** C9: constructing a RenderBuffer with a false [resizeable] raises, for
    every shape and format, because [__init__] sizes the buffer by calling
    [resize], which refuses a buffer that is not resizeable.  Hence a
    RenderBuffer whose construction returned has its flag true, and it keeps
    it through every sequence of calls made afterwards. *)
Theorem constructed_is_resizeable c shape format :
  (forall resizeable w,
     truthy resizeable = false ->
     outcome (RenderBuffer.__init__ c shape format resizeable w)
       = inl (RuntimeError "Buffer is not resizeable")) /\
  (forall resizeable w self w1,
     RenderBuffer.__init__ c shape format resizeable w = (inr self, w1) ->
     forall calls, exists o,
       heap (run_all calls w1) !! self = Some o /\
       _resizeable o = Some (PyBool true)).
Proof.
  split.
  - intros resizeable w Hf. rewrite init_steps.
    pose proof (at_first_resize_lookup c resizeable w) as Hl. rewrite Hf in Hl.
    now rewrite (bind_raise _ _ _ _ _ (resize_refused _ shape format _ _ _ Hl eq_refl eq_refl)).
  - intros resizeable w self w1 H calls. rewrite init_steps in H.
    apply bind_inv_ok in H as ([] & w2 & Hr & Hret).
    inversion Hret; subst self w2. clear Hret.
    pose proof (at_first_resize_lookup c resizeable w) as Hl.
    destruct (resize_cases (new_self w) shape format (at_first_resize c resizeable w))
      as [(e & _ & He) | (o & v & f & Ho & Hv & Ht & _ & _ & Hs)].
    { rewrite He in Hr. discriminate. }
    rewrite Hs in Hr. inversion Hr; subst w1. clear Hr.
    rewrite Hl in Ho. inversion Ho; subst o. cbn [_resizeable] in Hv.
    inversion Hv; subst v. cbn [truthy] in Ht.
    pose proof (stored_lookup _ shape f _ _ Hl) as Hst.
    destruct (run_all_extends calls _ _ _ Hst) as (o' & Ho' & (_ & _ & Hflag)).
    exists o'. split; [exact Ho' |]. rewrite Hflag. cbn. now rewrite Ht.
Qed.

End ConstructorFacts.

(** ** The slot setters *)

Module SetterFacts.

Lemma isinstance_class r o cs w :
  heap w !! r = Some o ->
  isinstance (PyObj r) cs w = (inr (existsb (issubclass (class_ o)) cs), w).
Proof. intros Ho. unfold isinstance. now rewrite Ho. Qed.

Lemma isinstance_not_object v cs w :
  (forall r, v <> PyObj r) -> isinstance v cs w = (inr false, w).
Proof. intros H. destruct v; try reflexivity. now destruct (H r). Qed.

(** The color slot takes a ColorBuffer or a Texture2D: the slot holds it
    afterwards and ATTACH carries the color target and the object's id. *)
Lemma set_color_buffer_accepts self fb r o w :
  heap w !! self = Some fb -> heap w !! r = Some o ->
  existsb (issubclass (class_ o)) [cls_ColorBuffer; cls_Texture2D] = true ->
  exists w',
    FrameBuffer.set_color_buffer self (PyObj r) w = (inr tt, w') /\
    FrameBuffer.color_buffer self w' = (inr (PyObj r), w') /\
    glir w' = (glir w ++ [ATTACH (_id fb) GL_COLOR_ATTACHMENT0 (_id o)])%list.
Proof.
  intros Hs Hr Hc. unfold FrameBuffer.set_color_buffer.
  rewrite (bind_ok _ _ _ _ _ (isinstance_class _ _ _ _ Hr)), Hc. cbn [orb].
  unfold FrameBuffer.id_or_0, GLObject.id. cbn [truthy].
  unfold bind, mutate, deref, glir_command, ret.
  cbn [heap glir _idcount].
  assert (Hs' : alter (set_color (PyObj r)) self (heap w) !! self = Some (set_color (PyObj r) fb))
    by now rewrite lookup_alter_eq, Hs.
  assert (Hr' : exists o', alter (set_color (PyObj r)) self (heap w) !! r = Some o' /\ _id o' = _id o).
  { destruct (decide (r = self)) as [-> | Hne].
    - rewrite Hs in Hr. inversion Hr; subst o. eexists. split; [exact Hs' | reflexivity].
    - exists o. split; [now rewrite lookup_alter_ne by congruence | reflexivity]. }
  destruct Hr' as (o' & Hr' & Hid).
  rewrite Hr'. cbn [heap glir _idcount]. rewrite Hs'. cbn [heap glir _idcount set_color _id].
  eexists. split; [reflexivity |]. split.
  - unfold FrameBuffer.color_buffer, getattr. cbn [heap]. now rewrite Hs'.
  - cbn [glir]. now rewrite Hid.
Qed.

(** Assigning [None] empties the color slot; ATTACH carries the id 0. *)
Lemma set_color_buffer_None self fb w :
  heap w !! self = Some fb ->
  exists w',
    FrameBuffer.set_color_buffer self PyNone w = (inr tt, w') /\
    FrameBuffer.color_buffer self w' = (inr PyNone, w') /\
    glir w' = (glir w ++ [ATTACH (_id fb) GL_COLOR_ATTACHMENT0 0])%list.
Proof.
  intros Hs. unfold FrameBuffer.set_color_buffer.
  unfold bind, isinstance, mutate, FrameBuffer.id_or_0, deref, glir_command, ret.
  cbn [orb is_None truthy heap glir _idcount].
  assert (Hs' : alter (set_color PyNone) self (heap w) !! self = Some (set_color PyNone fb))
    by now rewrite lookup_alter_eq, Hs.
  rewrite Hs'. cbn [heap glir _idcount set_color _id].
  eexists. split; [reflexivity |]. split; [| reflexivity].
  unfold FrameBuffer.color_buffer, getattr. cbn [heap]. now rewrite Hs'.
Qed.

(** Anything else raises TypeError and leaves the state as it is; among the
    things refused are the instances of [RenderBuffer] itself and of its
    depth and stencil subclasses. *)
Lemma set_color_buffer_rejects self v w :
  isinstance v [cls_ColorBuffer; cls_Texture2D] w = (inr false, w) ->
  is_None v = false ->
  FrameBuffer.set_color_buffer self v w =
    (inl (TypeError "Buffer must be a ColorBuffer, Texture2D or None. (got %s)"), w).
Proof.
  intros Hi Hn. unfold FrameBuffer.set_color_buffer.
  rewrite (bind_ok _ _ _ _ _ Hi), Hn. reflexivity.
Qed.

Lemma set_depth_buffer_rejects self v w :
  isinstance v [cls_DepthBuffer; cls_Texture2D] w = (inr false, w) ->
  is_None v = false ->
  FrameBuffer.set_depth_buffer self v w =
    (inl (TypeError "Buffer must be a DepthBuffer, Texture2D or None. (got %s)"), w).
Proof.
  intros Hi Hn. unfold FrameBuffer.set_depth_buffer.
  rewrite (bind_ok _ _ _ _ _ Hi), Hn. reflexivity.
Qed.

(** The stencil slot refuses whatever is neither a StencilBuffer nor [None],
    and the state, the slot included, is as before. *)
Lemma set_stencil_buffer_rejects self v w :
  isinstance v [cls_StencilBuffer] w = (inr false, w) ->
  is_None v = false ->
  FrameBuffer.set_stencil_buffer self v w =
    (inl (TypeError "Buffer must be a StencilBuffer, Texture2D or None. (got %s)"), w).
Proof.
  intros Hi Hn. unfold FrameBuffer.set_stencil_buffer.
  rewrite (bind_ok _ _ _ _ _ Hi), Hn. reflexivity.
Qed.

(** An instance of [RenderBuffer] itself is refused by the three slots. *)
Lemma plain_RenderBuffer_refused self r o w :
  heap w !! r = Some o -> class_ o = cls_RenderBuffer ->
  outcome (FrameBuffer.set_color_buffer self (PyObj r) w) =
    inl (TypeError "Buffer must be a ColorBuffer, Texture2D or None. (got %s)") /\
  outcome (FrameBuffer.set_depth_buffer self (PyObj r) w) =
    inl (TypeError "Buffer must be a DepthBuffer, Texture2D or None. (got %s)") /\
  outcome (FrameBuffer.set_stencil_buffer self (PyObj r) w) =
    inl (TypeError "Buffer must be a StencilBuffer, Texture2D or None. (got %s)").
Proof.
  intros Ho Hc.
  assert (Hi : forall cs, existsb (issubclass cls_RenderBuffer) cs = false ->
                 isinstance (PyObj r) cs w = (inr false, w)).
  { intros cs Hcs. now rewrite (isinstance_class _ _ _ _ Ho), Hc, Hcs. }
  rewrite set_color_buffer_rejects, set_depth_buffer_rejects, set_stencil_buffer_rejects
    by (reflexivity || (apply Hi; reflexivity)).
  repeat split.
Qed.

End SetterFacts.

(** ** Readback *)

Module ReadFacts.

Lemma mode_field_inv m f :
  mode_field m = Some f ->
  (m = "color" /\ f = _color_buffer) \/ (m = "depth" /\ f = _depth_buffer) \/
  (m = "stencil" /\ f = _stencil_buffer).
Proof.
  unfold mode_field. intros H.
  destruct (String.eqb m "color") eqn:Hc.
  { apply String.eqb_eq in Hc. inversion H. auto. }
  destruct (String.eqb m "depth") eqn:Hd.
  { apply String.eqb_eq in Hd. inversion H. auto. }
  destruct (String.eqb m "stencil") eqn:Hs; [| discriminate].
  apply String.eqb_eq in Hs. inversion H. auto.
Qed.

(** Up to the unpacking of the shape, [read] with a valid mode gets the
    slot of that mode. *)
Lemma read_valid_mode self fb m f v alpha w :
  heap w !! self = Some fb -> mode_field m = Some f -> f fb = Some v ->
  FrameBuffer.read self (PyStr m) alpha w =
  (let* sh := getattr _shape "_shape" v in
   let* hw := unpack2 sh in
   let (h, wd) := hw in
   wrappers.read_pixels (PyTuple [PyInt 0; PyInt 0; wd; h]) alpha) w.
Proof.
  intros Ho Hm Hf.
  assert (Hstep : forall (get : M value) name,
            get = getattr f name (PyObj self) ->
            (let* _ := ret tt in
             let* buffer := get in
             let* sh := getattr _shape "_shape" buffer in
             let* hw := unpack2 sh in
             let (h, wd) := hw in
             wrappers.read_pixels (PyTuple [PyInt 0; PyInt 0; wd; h]) alpha) w =
            (let* sh := getattr _shape "_shape" v in
             let* hw := unpack2 sh in
             let (h, wd) := hw in
             wrappers.read_pixels (PyTuple [PyInt 0; PyInt 0; wd; h]) alpha) w).
  { intros get name ->. unfold bind at 1. cbn [ret].
    now rewrite (bind_ok _ _ _ _ _ (getattr_set _ name _ _ _ _ Ho Hf)). }
  destruct (mode_field_inv _ _ Hm) as [[-> ->] | [[-> ->] | [-> ->]]].
  - exact (Hstep (FrameBuffer.color_buffer self) "_color_buffer" eq_refl).
  - exact (Hstep (FrameBuffer.depth_buffer self) "_depth_buffer" eq_refl).
  - exact (Hstep (FrameBuffer.stencil_buffer self) "_stencil_buffer" eq_refl).
Qed.

(** Any other mode is refused before anything is read. *)
Lemma read_invalid_mode self mode alpha w :
  (forall m, mode = PyStr m -> mode_field m = None) ->
  FrameBuffer.read self mode alpha w =
    (inl (ValueError "mode must be one of the valid options"), w).
Proof.
  intros H. unfold FrameBuffer.read, wrappers._check_valid.
  destruct mode as [| | | | m | | |]; try reflexivity.
  specialize (H m eq_refl). unfold mode_field in H. cbn [existsb].
  destruct (String.eqb m "color"); [discriminate |].
  destruct (String.eqb m "depth"); [discriminate |].
  destruct (String.eqb m "stencil"); [discriminate |].
  reflexivity.
Qed.

(** An empty slot: [None] has no [_shape], the read raises. *)
Lemma read_empty_slot self fb m f alpha w :
  heap w !! self = Some fb -> mode_field m = Some f -> f fb = Some PyNone ->
  FrameBuffer.read self (PyStr m) alpha w = (inl (AttributeError "_shape"), w).
Proof. intros Ho Hm Hf. now rewrite (read_valid_mode _ _ _ _ _ _ _ Ho Hm Hf). Qed.

(** A slot holding an object whose stored shape has two elements: the
    array has shape (h, w, 4) with alpha and (h, w, 3) without. *)
Lemma read_two_elements self fb m f r o h wd alpha w :
  heap w !! self = Some fb -> mode_field m = Some f -> f fb = Some (PyObj r) ->
  heap w !! r = Some o -> _shape o = Some (PyTuple [h; wd]) ->
  FrameBuffer.read self (PyStr m) alpha w =
    (inr (wrappers.uint8_array [h; wd; PyInt (if truthy alpha then 4 else 3)]), w).
Proof.
  intros Ho Hm Hf Hr Hs. rewrite (read_valid_mode _ _ _ _ _ _ _ Ho Hm Hf).
  now rewrite (bind_ok _ _ _ _ _ (getattr_set _ _ _ _ _ _ Hr Hs)).
Qed.

(** A slot holding an object whose stored shape has three elements: the
    unpacking into [h, w] raises. *)
Lemma read_three_elements self fb m f r o h wd d alpha w :
  heap w !! self = Some fb -> mode_field m = Some f -> f fb = Some (PyObj r) ->
  heap w !! r = Some o -> _shape o = Some (PyTuple [h; wd; d]) ->
  FrameBuffer.read self (PyStr m) alpha w =
    (inl (ValueError "too many values to unpack"), w).
Proof.
  intros Ho Hm Hf Hr Hs. rewrite (read_valid_mode _ _ _ _ _ _ _ Ho Hm Hf).
  now rewrite (bind_ok _ _ _ _ _ (getattr_set _ _ _ _ _ _ Hr Hs)).
Qed.

End ReadFacts.

(** ** The statements at concrete programs *)

Module Checks.
Import Scenario.

(** The end-to-end run with a ColorBuffer: after the FrameBuffer is resized
    to (240, 320) its shape is (240, 320) and a read with alpha gives an
    array of shape (240, 320, 4). *)
Example end_to_end_ColorBuffer :
  outcome (end_to_end w0) =
    inr (yx 240 320, wrappers.uint8_array [PyInt 240; PyInt 320; PyInt 4]).
Proof. vm_compute. reflexivity. Qed.

(** A partial failure: the color buffer is resized, then the texture in the
    depth slot refuses; the FrameBuffer's resize raises, the color buffer is
    at the new size and the texture at the old one. *)
Example partial_failure :
  outcome (FrameBuffer.resize 3 (yx 2 3) w_fixed_texture) =
    inl (RuntimeError "Texture is not resizeable") /\
  (_shape <$> heap (after (FrameBuffer.resize 3 (yx 2 3) w_fixed_texture)) !! 1%positive)
    = Some (Some (yx 2 3)) /\
  (_shape <$> heap (after (FrameBuffer.resize 3 (yx 2 3) w_fixed_texture)) !! 2%positive)
    = Some (Some (yx 4 5)).
Proof. vm_compute. repeat split. Qed.

(** C1: the color slot refuses an instance of [RenderBuffer]: for
    [rb = RenderBuffer((480, 640), 'color')] the assignment
    [fb.color_buffer = rb] raises TypeError, and no ATTACH command is queued.
    The setter takes instances of [ColorBuffer] and [Texture2D] only. *)
Theorem color_slot_refuses_RenderBuffer :
  outcome (attach_color w0) =
    inl (TypeError "Buffer must be a ColorBuffer, Texture2D or None. (got %s)") /\
  glir (after (attach_color w0)) =
    [CREATE 1 "RenderBuffer"; SIZE 1 (yx 480 640) (PyEnum GL_RGBA); CREATE 2 "FrameBuffer"].
Proof. vm_compute. split; reflexivity. Qed.

(** C2: the stencil slot refuses an instance of [RenderBuffer]: for
    [rb = RenderBuffer((480, 640), 'stencil')] the assignment
    [fb.stencil_buffer = rb] raises TypeError, and no ATTACH command is
    queued.  The setter takes instances of [StencilBuffer] only. *)
Theorem stencil_slot_refuses_RenderBuffer :
  outcome (attach_stencil w0) =
    inl (TypeError "Buffer must be a StencilBuffer, Texture2D or None. (got %s)") /\
  glir (after (attach_stencil w0)) =
    [CREATE 1 "RenderBuffer"; SIZE 1 (yx 480 640) (PyEnum GL_STENCIL_INDEX8);
     CREATE 2 "FrameBuffer"].
Proof. vm_compute. split; reflexivity. Qed.

(** C3: after [rb.resize((240, 320, 1))] the query [rb.shape] returns the
    3-element tuple (240, 320, 1), not the 2-element (240, 320): [resize]
    stores the tuple it was given. *)
Theorem resize_keeps_third_element :
  outcome (resize_three w0) = inr (yxz 240 320 1) /\
  yxz 240 320 1 <> yx 240 320.
Proof. split; [vm_compute; reflexivity | discriminate]. Qed.

(** C6: [RenderBuffer((480, 640))], with no format ever set, raises
    AttributeError for the attribute [_format], which [__init__] does not
    create before it calls [resize]; the ValueError for a missing format is
    not reached. *)
Theorem construct_without_format_raises :
  outcome (construct_without_format w0) = inl (AttributeError "_format") /\
  outcome (construct_without_format w0) <>
    inl (ValueError "Format can only be None if already set.").
Proof. split; [vm_compute; reflexivity | vm_compute; discriminate]. Qed.

(** C8: with [cb = ColorBuffer((480, 640, 1))] attached as color buffer,
    [fb.read('color', True)] raises ValueError in [h, w = buffer._shape]
    instead of returning an array of shape (480, 640, 4). *)
Theorem read_raises_on_three_elements :
  outcome (read_three w0) = inl (ValueError "too many values to unpack").
Proof. vm_compute. reflexivity. Qed.

(** Witness of C4 on a FrameBuffer holding a color and a depth buffer. *)
Lemma shape_priority_witness :
  FrameBuffer.shape 3 w_two_buffers = (inr (yx 4 5), w_two_buffers).
Proof.
  apply (FrameBufferFacts.shape_priority 3 w_two_buffers fb_two_buffers
           (Some (1%positive, yx 4 5)) (Some (2%positive, yx 4 5)) None).
  - vm_compute. reflexivity.
  - repeat split.
  - eexists. split; [vm_compute; reflexivity |]. split; [discriminate | reflexivity].
  - eexists. split; [vm_compute; reflexivity |]. split; [discriminate | reflexivity].
  - exact I.
Defined.

(** Witness of C5 on the buffer that a refused construction leaves. *)
Lemma resize_not_resizeable_witness :
  outcome (RenderBuffer.resize 1 (yx 2 3) (PyStr "color") w_refused)
    = inl (RuntimeError "Buffer is not resizeable") /\
  after (RenderBuffer.resize 1 (yx 2 3) (PyStr "color") w_refused) = w_refused /\
  RenderBuffer.shape 1 (after (RenderBuffer.resize 1 (yx 2 3) (PyStr "color") w_refused))
    = RenderBuffer.shape 1 w_refused.
Proof.
  apply (RenderBufferFacts.resize_not_resizeable 1 (yx 2 3) (PyStr "color") w_refused rb_refused).
  - vm_compute. reflexivity.
  - reflexivity.
Defined.

(** Witness of C7 on a FrameBuffer holding a color and a depth buffer: both
    are resized, color first. *)
Lemma resize_forwards_in_order_witness :
  FrameBuffer.resize 3 (yx 2 3) w_two_buffers = forward (yx 2 3) [1; 2]%positive w_two_buffers /\
  glir (after (FrameBuffer.resize 3 (yx 2 3) w_two_buffers)) =
    (glir w_two_buffers ++
       [SIZE 1 (yx 2 3) (PyEnum GL_RGBA); SIZE 2 (yx 2 3) (PyEnum GL_DEPTH_COMPONENT16)])%list.
Proof.
  destruct (FrameBufferResize.resize_forwards_in_order 3 (yx 2 3) w_two_buffers fb_two_buffers
              (PyBool true) (Some 1%positive) (Some 2%positive) None)
    as (_ & _ & Hfwd).
  - vm_compute. reflexivity.
  - reflexivity.
  - repeat split.
  - destruct (Hfwd eq_refl eq_refl) as (Heq & Hok & _).
    split; [exact Heq |].
    destruct (Hok (after (FrameBuffer.resize 3 (yx 2 3) w_two_buffers))) as (_ & Hg).
    + vm_compute. reflexivity.
    + rewrite Hg. vm_compute. reflexivity.
Defined.

(** Witness of C9: a refused and a successful construction. *)
Lemma constructed_is_resizeable_witness :
  outcome (RenderBuffer.__init__ cls_RenderBuffer (yx 4 5) (PyStr "color") (PyBool false) w0)
    = inl (RuntimeError "Buffer is not resizeable") /\
  exists o,
    heap (run_all [RenderBuffer_resize 1 (yx 2 3) PyNone; FrameBuffer_resize 1 (yx 7 7)] w_one)
      !! 1%positive = Some o /\
    _resizeable o = Some (PyBool true).
Proof.
  destruct (ConstructorFacts.constructed_is_resizeable cls_RenderBuffer (yx 4 5) (PyStr "color"))
    as [Hraise Hkeep].
  split.
  - apply Hraise. reflexivity.
  - apply (Hkeep (PyBool true) w0 1%positive w_one). vm_compute. reflexivity.
Defined.

(** Witness of C10: a shape that is not a tuple. *)
Lemma resize_failure_atomic_witness :
  RenderBuffer.resize 1 (PyInt 7) PyNone w_one =
    (inl (ValueError "RenderBuffer shape must be a 2/3 element tuple"),
     after (RenderBuffer.resize 1 (PyInt 7) PyNone w_one)) /\
  after (RenderBuffer.resize 1 (PyInt 7) PyNone w_one) = w_one /\
  heap (after (RenderBuffer.resize 1 (PyInt 7) PyNone w_one)) !! 1%positive
    = heap w_one !! 1%positive /\
  glir (after (RenderBuffer.resize 1 (PyInt 7) PyNone w_one)) = glir w_one /\
  In (ValueError "RenderBuffer shape must be a 2/3 element tuple") resize_errors.
Proof.
  assert (H : RenderBuffer.resize 1 (PyInt 7) PyNone w_one =
              (inl (ValueError "RenderBuffer shape must be a 2/3 element tuple"),
               after (RenderBuffer.resize 1 (PyInt 7) PyNone w_one))).
  { vm_compute. reflexivity. }
  split; [exact H |].
  exact (RenderBufferFacts.resize_failure_atomic 1 (PyInt 7) PyNone w_one _ _ H).
Defined.

End Checks.

(** * Further properties of the code *)

(** ** RenderBuffer.resize: formats, shapes, repetition *)

Module ResizeFacts.
Import RenderBufferFacts.

(** The validation of the format is the pure [resolve_format]. *)
Lemma check_format_resolve self format w o :
  heap w !! self = Some o ->
  match resolve_format o format with
  | Some f => RenderBuffer.check_format self format w = (inr f, w)
  | None => exists e, RenderBuffer.check_format self format w = (inl e, w)
  end.
Proof.
  intros Ho. unfold resolve_format, RenderBuffer.check_format.
  destruct (is_None format).
  - destruct (_format o) as [f |] eqn:Hf.
    + rewrite (bind_ok _ _ _ _ _ (getattr_set _ _ _ _ _ _ Ho Hf)).
      destruct (is_None f); [eexists |]; reflexivity.
    + rewrite (bind_raise _ _ _ _ _ (getattr_unset _ _ _ _ _ Ho Hf)). eexists; reflexivity.
  - destruct (isinstance_int format); [reflexivity |].
    destruct format; try reflexivity.
    destruct (RenderBuffer.dict_get s RenderBuffer.formats); [| eexists]; reflexivity.
Qed.

Lemma resolve_format_not_None o format f :
  resolve_format o format = Some f -> is_None f = false.
Proof.
  unfold resolve_format. destruct (is_None format) eqn:Hn.
  - destruct (_format o) as [g |]; [| discriminate].
    destruct (is_None g) eqn:Hg; [discriminate |]. now intros [= <-].
  - destruct (isinstance_int format); [now intros [= <-] |].
    destruct format; try (now intros [= <-]).
    destruct (RenderBuffer.dict_get s RenderBuffer.formats); [| discriminate].
    now intros [= <-].
Qed.

Lemma resize_returns_exactly self shape format w o w' :
  heap w !! self = Some o ->
  RenderBuffer.resize self shape format w = (inr tt, w') <->
  exists v f,
    _resizeable o = Some v /\ truthy v = true /\
    RenderBuffer.shape_ok shape = true /\
    resolve_format o format = Some f /\
    w' = stored self shape f w.
Proof.
  intros Ho. split.
  - intros H.
    destruct (resize_cases self shape format w)
      as [(e & _ & He) | (o1 & v & f & Ho1 & Hv & Ht & Hs & Hc & Hr)].
    { rewrite He in H. discriminate. }
    rewrite Ho in Ho1. inversion Ho1; subst o1.
    rewrite Hr in H. inversion H; subst w'.
    exists v, f. repeat split; try assumption.
    pose proof (check_format_resolve self format w o Ho) as Hres.
    destruct (resolve_format o format) as [g |].
    + rewrite Hres in Hc. now inversion Hc.
    + destruct Hres as (e & He). rewrite He in Hc. discriminate.
  - intros (v & f & Hv & Ht & Hs & Hf & ->).
    eapply resize_commit; try eassumption.
    pose proof (check_format_resolve self format w o Ho) as Hres.
    now rewrite Hf in Hres.
Qed.

(** [resize] returns exactly when the flag is true, the shape is a tuple of
    2 or 3 elements (of whatever kind) and the format resolves; the state it
    leaves is then the one with shape and resolved format stored on [self]
    and one SIZE command queued. *)
Theorem resize_returns_iff self shape format w o w' :
  heap w !! self = Some o ->
  RenderBuffer.resize self shape format w = (inr tt, w') <->
  exists v f,
    _resizeable o = Some v /\ truthy v = true /\
    RenderBuffer.shape_ok shape = true /\
    resolve_format o format = Some f /\
    w' = stored self shape f w.
Proof.
  intros Ho. split.
  - intros H. now apply (resize_returns_exactly self shape format w o w' Ho).
  - intros (v & f & Hv & Ht & Hs & Hf & ->).
    eapply resize_commit; try eassumption.
    pose proof (check_format_resolve self format w o Ho) as Hres.
    now rewrite Hf in Hres.
Qed.

(** The names color, depth and stencil are translated: the enumerant is what
    is stored, queued and returned by the [format] property.  Any other string
    raises ValueError and the state is untouched. *)
Theorem resize_named_format self shape s w o v :
  heap w !! self = Some o ->
  _resizeable o = Some v -> truthy v = true ->
  RenderBuffer.shape_ok shape = true ->
  match RenderBuffer.dict_get s RenderBuffer.formats with
  | Some e =>
      RenderBuffer.resize self shape (PyStr s) w = (inr tt, stored self shape (PyEnum e) w) /\
      RenderBuffer.format self (stored self shape (PyEnum e) w)
        = (inr (PyEnum e), stored self shape (PyEnum e) w) /\
      glir (stored self shape (PyEnum e) w) = (glir w ++ [SIZE (_id o) shape (PyEnum e)])%list
  | None =>
      RenderBuffer.resize self shape (PyStr s) w =
        (inl (ValueError
                "RenderBuffer format must be 'color', 'depth' or 'stencil', not %r"), w)
  end.
Proof.
  intros Ho Hv Ht Hs.
  destruct (RenderBuffer.dict_get s RenderBuffer.formats) as [e |] eqn:Hd.
  - assert (Hc : RenderBuffer.check_format self (PyStr s) w = (inr (PyEnum e), w)).
    { unfold RenderBuffer.check_format. cbn [is_None isinstance_int]. now rewrite Hd. }
    split; [eapply resize_commit; eassumption |]. split.
    + unfold RenderBuffer.format.
      eapply getattr_set; [apply stored_lookup; eassumption | reflexivity].
    + now apply stored_glir.
  - unfold RenderBuffer.resize.
    rewrite (bind_ok _ _ _ _ _ (getattr_set _ _ _ _ _ _ Ho Hv)), Ht, Hs. cbn [negb].
    unfold RenderBuffer.check_format. cbn [is_None isinstance_int].
    unfold bind at 1. now rewrite Hd.
Qed.

(** A format that is neither [None] nor a string is never checked: an
    integer, a boolean, but also a tuple, a list or an object is stored and
    queued as it is. *)
Theorem resize_unchecked_format self shape format w o v :
  heap w !! self = Some o ->
  _resizeable o = Some v -> truthy v = true ->
  RenderBuffer.shape_ok shape = true ->
  is_None format = false -> isinstance_str format = false ->
  RenderBuffer.resize self shape format w = (inr tt, stored self shape format w) /\
  heap (stored self shape format w) !! self = Some (set_format format (set_shape shape o)) /\
  glir (stored self shape format w) = (glir w ++ [SIZE (_id o) shape format])%list.
Proof.
  intros Ho Hv Ht Hs Hn Hstr.
  assert (Hc : RenderBuffer.check_format self format w = (inr format, w)).
  { unfold RenderBuffer.check_format. rewrite Hn.
    destruct (isinstance_int format); [reflexivity |].
    destruct format; try reflexivity. discriminate. }
  split; [eapply resize_commit; eassumption |]. split.
  - now apply stored_lookup.
  - now apply stored_glir.
Qed.

(** Resizing again to the same shape with the format omitted returns, leaves
    every object as it is, and queues the same SIZE command once more: the
    command is sent whether or not anything changed. *)
Theorem resize_again self shape format w w1 :
  RenderBuffer.resize self shape format w = (inr tt, w1) ->
  exists c w2,
    RenderBuffer.resize self shape PyNone w1 = (inr tt, w2) /\
    heap w2 = heap w1 /\
    last (glir w1) = Some c /\
    glir w2 = (glir w1 ++ [c])%list.
Proof.
  intros H.
  destruct (resize_cases self shape format w)
    as [(e & _ & He) | (o & v & f & Ho & Hv & Ht & Hs & Hc & Hr)].
  { rewrite He in H. discriminate. }
  rewrite Hr in H. inversion H; subst w1. clear H.
  pose proof (check_format_resolve self format w o Ho) as Hres.
  destruct (resolve_format o format) as [g |] eqn:Hg;
    [| destruct Hres as (e & He); rewrite He in Hc; discriminate].
  rewrite Hres in Hc. inversion Hc; subst g. clear Hc.
  pose proof (resolve_format_not_None _ _ _ Hg) as Hn.
  pose proof (stored_lookup self shape f w o Ho) as Hl.
  exists (SIZE (_id o) shape f), (stored self shape f (stored self shape f w)).
  split; [| split; [| split]].
  - eapply resize_reuses_format; try eassumption; reflexivity.
  - unfold stored at 1. cbn [heap].
    rewrite alter_alter_eq. apply alter_id.
    intros x Hx. rewrite Hl in Hx. inversion Hx; subst x. reflexivity.
  - rewrite (stored_glir _ _ _ _ _ Ho). apply last_snoc.
  - rewrite (stored_glir _ _ _ _ _ Hl). reflexivity.
Qed.



End ResizeFacts.

(** ** The attachment slots *)

Module SlotFacts.

Lemma isinstance_pure v cs w : isinstance v cs w = (inr (instance_of w v cs), w).
Proof.
  unfold isinstance, instance_of. destruct v; try reflexivity.
  destruct (heap w !! r); reflexivity.
Qed.

Lemma slot_assign_id k v o : _id (slot_assign k v o) = _id o.
Proof. destruct k; reflexivity. Qed.

Lemma slot_assign_field k v o : slot_field k (slot_assign k v o) = Some v.
Proof. destruct k; reflexivity. Qed.

Lemma slot_assign_other k k' v o :
  k' <> k -> slot_field k' (slot_assign k v o) = slot_field k' o.
Proof. destruct k, k'; intros H; try reflexivity; contradiction. Qed.

(** The body the three setters share. *)
Lemma setter_unfold k self buffer :
  setter k self buffer =
  (let* inst := isinstance buffer (slot_accepts k) in
   if inst || is_None buffer then
     let* _ := mutate self (slot_assign k buffer) in
     let* id := FrameBuffer.id_or_0 buffer in
     let* o := deref self in
     glir_command (ATTACH (_id o) (slot_target k) id)
   else raise (TypeError (slot_message k))).
Proof. destruct k; reflexivity. Qed.

(** The id sent in ATTACH is read after the slot is assigned; it is the id
    the value had before. *)
Lemma id_or_0_after_assign g self v w :
  (forall o, _id (g o) = _id o) ->
  instance_of w v [cls_RenderBuffer; cls_Texture2D; cls_FrameBuffer] || is_None v = true ->
  FrameBuffer.id_or_0 v (mk_world (alter g self (heap w)) (glir w) (_idcount w)) =
  (inr (attached_id w v), mk_world (alter g self (heap w)) (glir w) (_idcount w)).
Proof.
  intros Hg Hv. unfold FrameBuffer.id_or_0, attached_id.
  destruct v; try discriminate; try reflexivity.
  cbn [truthy GLObject.id]. unfold instance_of in Hv.
  destruct (heap w !! r) as [o |] eqn:Hr; [| discriminate].
  unfold bind, deref, ret. cbn [heap].
  destruct (decide (r = self)) as [-> | Hne].
  - rewrite lookup_alter_eq, Hr. cbn. now rewrite Hg.
  - rewrite lookup_alter_ne by congruence. now rewrite Hr.
Qed.

Lemma instance_of_any w v cs :
  instance_of w v cs = true ->
  instance_of w v [cls_RenderBuffer; cls_Texture2D; cls_FrameBuffer] = true.
Proof.
  unfold instance_of. destruct v; try discriminate.
  destruct (heap w !! r) as [o |]; [| discriminate].
  intros _. destruct (class_ o); reflexivity.
Qed.

Lemma setter_cases k self fb v w :
  heap w !! self = Some fb ->
  setter k self v w =
    if instance_of w v (slot_accepts k) || is_None v
    then (inr tt, attached (slot_assign k) (slot_target k) self v w)
    else (inl (TypeError (slot_message k)), w).
Proof.
  intros Ho. rewrite setter_unfold.
  rewrite (bind_ok _ _ _ _ _ (isinstance_pure _ _ _)).
  destruct (instance_of w v (slot_accepts k) || is_None v) eqn:Hacc; [| reflexivity].
  unfold bind at 1. cbn [mutate].
  rewrite (bind_ok _ _ _ _ _ (id_or_0_after_assign _ self v w (slot_assign_id k v)
             ltac:(apply orb_true_iff in Hacc as [H | H];
                   [rewrite (instance_of_any _ _ _ H); reflexivity
                   | rewrite H; apply orb_true_r]))).
  unfold bind, deref, glir_command, attached. cbn [heap glir _idcount].
  rewrite lookup_alter_eq, Ho. cbn. now rewrite slot_assign_id.
Qed.

(** What a setter does with any value: [None] and the instances of the
    accepted classes (ColorBuffer or Texture2D for color, DepthBuffer or
    Texture2D for depth, StencilBuffer for stencil) are stored and announced
    with one ATTACH; anything else, a texture in the stencil slot included,
    raises TypeError and the state stays as it was. *)
Theorem set_attachment_outcome k self fb v w :
  heap w !! self = Some fb ->
  setter k self v w =
    if instance_of w v (slot_accepts k) || is_None v
    then (inr tt, attached (slot_assign k) (slot_target k) self v w)
    else (inl (TypeError (slot_message k)), w).
Proof.
  intros Ho. destruct (instance_of w v (slot_accepts k) || is_None v) eqn:Hacc.
  - pose proof (setter_cases k self fb v w Ho) as H. now rewrite Hacc in H.
  - rewrite setter_unfold, (bind_ok _ _ _ _ _ (isinstance_pure _ _ _)).
    now rewrite Hacc.
Qed.

(** After an accepted assignment the getter of the slot returns the value,
    the two other slots hold what they held, no other object has changed,
    and the queue has one more command: ATTACH with the FrameBuffer's id,
    the target of the slot and the id of the value (0 for [None]). *)
Theorem set_attachment_accepted k self fb v w :
  heap w !! self = Some fb ->
  instance_of w v (slot_accepts k) || is_None v = true ->
  exists w',
    setter k self v w = (inr tt, w') /\
    getter k self w' = (inr v, w') /\
    (forall k', k' <> k -> outcome (getter k' self w') = outcome (getter k' self w)) /\
    (forall r, r <> self -> heap w' !! r = heap w !! r) /\
    glir w' = (glir w ++ [ATTACH (_id fb) (slot_target k) (attached_id w v)])%list.
Proof.
  intros Ho Hacc. eexists. split.
  { rewrite (setter_cases _ _ _ _ _ Ho), Hacc. reflexivity. }
  assert (Hl : heap (attached (slot_assign k) (slot_target k) self v w) !! self
               = Some (slot_assign k v fb)).
  { unfold attached. cbn [heap]. now rewrite lookup_alter_eq, Ho. }
  split; [| split; [| split]].
  - destruct k; (eapply getattr_set; [exact Hl | reflexivity]).
  - intros k' Hne.
    assert (Hf : slot_field k' (slot_assign k v fb) = slot_field k' fb)
      by now apply slot_assign_other.
    destruct k'; cbn [getter] in *;
      unfold FrameBuffer.color_buffer, FrameBuffer.depth_buffer, FrameBuffer.stencil_buffer,
        getattr; rewrite Hl, Ho; cbn [slot_field] in Hf; rewrite Hf;
      match goal with |- context [match ?x with _ => _ end] => destruct x end; reflexivity.
  - intros r Hne. unfold attached. cbn [heap]. now rewrite lookup_alter_ne by congruence.
  - unfold attached. cbn [glir]. now rewrite Ho.
Qed.

End SlotFacts.

(** ** FrameBuffer: construction, the empty FrameBuffer, resize then shape *)

Module FrameBufferMore.
Import AttachmentFacts FrameBufferResize FrameFacts.

Lemma FrameBuffer_init_steps color depth stencil resizeable w :
  FrameBuffer.__init__ color depth stencil resizeable w =
  attach_args (new_self w) color depth stencil (at_attach_args resizeable w).
Proof. reflexivity. Qed.

Lemma at_attach_args_lookup resizeable w :
  heap (at_attach_args resizeable w) !! new_self w =
  Some (mk_pyobject cls_FrameBuffer (_idcount w + 1) (Some (PyBool (truthy resizeable)))
          (Some PyNone) None (Some PyNone) (Some PyNone) (Some PyNone)).
Proof.
  unfold at_attach_args. cbn [heap].
  now rewrite !lookup_alter_eq, lookup_insert_eq.
Qed.

Lemma frame_attach_args self color depth stencil :
  frame (attach_args self color depth stencil).
Proof.
  unfold attach_args.
  apply frame_bind; [| intros _].
  { destruct (negb (is_None color)); [apply frame_set_color_buffer | apply frame_ret]. }
  apply frame_bind; [| intros _].
  { destruct (negb (is_None depth)); [apply frame_set_depth_buffer | apply frame_ret]. }
  apply frame_bind; [| intros _; apply frame_ret].
  destruct (negb (is_None stencil)); [apply frame_set_stencil_buffer | apply frame_ret].
Qed.

Lemma attach_args_returns_self self color depth stencil w r w1 :
  attach_args self color depth stencil w = (inr r, w1) -> r = self.
Proof.
  unfold attach_args. intros H.
  apply bind_inv_ok in H as (? & ? & _ & H).
  apply bind_inv_ok in H as (? & ? & _ & H).
  apply bind_inv_ok in H as (? & ? & _ & H).
  now inversion H.
Qed.

(** The flag of a FrameBuffer is the truth value of the argument, and it
    stays: the constructor does not call [resize], so a FrameBuffer that is
    not resizeable can be built (with no attachment it always is), and from
    then on its [resize] raises and changes nothing, whatever is called in
    between. *)
Theorem fixed_FrameBuffer_never_resizes color depth stencil resizeable w :
  truthy resizeable = false ->
  (exists w1, FrameBuffer.__init__ PyNone PyNone PyNone resizeable w = (inr (new_self w), w1)) /\
  (forall self w1,
     FrameBuffer.__init__ color depth stencil resizeable w = (inr self, w1) ->
     forall calls shape,
       FrameBuffer.resize self shape (run_all calls w1) =
         (inl (RuntimeError "FrameBuffer is not resizeable"), run_all calls w1)).
Proof.
  intros Hf. split; [eexists; reflexivity |].
  intros self w1 H calls shape. rewrite FrameBuffer_init_steps in H.
  pose proof (attach_args_returns_self _ _ _ _ _ _ _ H) as ->.
  pose proof (frame_attach_args (new_self w) color depth stencil (at_attach_args resizeable w))
    as Hext.
  rewrite H in Hext. cbn [after snd] in Hext.
  destruct (Hext _ _ (at_attach_args_lookup resizeable w)) as (fb1 & H1 & _ & _ & Hflag1).
  destruct (run_all_extends calls _ _ _ H1) as (fb2 & H2 & _ & _ & Hflag2).
  unfold FrameBuffer.resize.
  rewrite (bind_ok _ _ _ _ _ (getattr_set _ "_resizeable" _ _ _ (PyBool false) H2
             ltac:(rewrite Hflag2, Hflag1; cbn; now rewrite Hf))).
  reflexivity.
Qed.

(** A FrameBuffer with no attachment: [resize] with a valid shape returns
    and does nothing at all, and the shape query raises before and after. *)
Theorem empty_FrameBuffer self shape w fb v :
  heap w !! self = Some fb ->
  _resizeable fb = Some v -> truthy v = true ->
  RenderBuffer.shape_ok shape = true ->
  holds fb None None None ->
  FrameBuffer.resize self shape w = (inr tt, w) /\
  FrameBuffer.shape self w =
    (inl (RuntimeError "FrameBuffer without buffers has undefined shape"), w).
Proof.
  intros Ho Hv Ht Hs Hh. split.
  - now rewrite (resize_is_forward _ _ _ _ _ _ _ _ Ho Hv Ht Hs Hh).
  - destruct Hh as (Hc & Hd & Hst). unfold FrameBuffer.shape.
    rewrite (bind_ok _ _ _ _ _ (getattr_set _ "_color_buffer" _ _ _ _ Ho Hc)). cbn [slot is_None negb].
    rewrite (bind_ok _ _ _ _ _ (getattr_set _ "_depth_buffer" _ _ _ _ Ho Hd)). cbn [slot is_None negb].
    rewrite (bind_ok _ _ _ _ _ (getattr_set _ "_stencil_buffer" _ _ _ _ Ho Hst)).
    reflexivity.
Qed.

(** The shape query answers with the first attached object. *)
Lemma shape_of_first self c d s w r l sh :
  slots_at self c d s w -> present c d s = r :: l -> is_buffer w r sh ->
  FrameBuffer.shape self w = (inr sh, w).
Proof.
  intros (fb & Ho & Hc & Hd & Hs) Hp Hb. unfold FrameBuffer.shape.
  assert (Hsend : send_shape (PyObj r) w = (inr sh, w)).
  { destruct Hb as (o & Hr & Hcl & Hsh). unfold send_shape.
    rewrite (bind_ok _ _ _ _ _ (deref_ok _ _ _ Hr)).
    destruct (class_ o); try contradiction; (eapply getattr_set; [exact Hr | exact Hsh]). }
  rewrite (bind_ok _ _ _ _ _ (getattr_set _ "_color_buffer" _ _ _ _ Ho Hc)).
  destruct c as [rc |]; cbn [slot is_None negb].
  { inversion Hp; subst. exact Hsend. }
  rewrite (bind_ok _ _ _ _ _ (getattr_set _ "_depth_buffer" _ _ _ _ Ho Hd)).
  destruct d as [rd |]; cbn [slot is_None negb].
  { inversion Hp; subst. exact Hsend. }
  rewrite (bind_ok _ _ _ _ _ (getattr_set _ "_stencil_buffer" _ _ _ _ Ho Hs)).
  destruct s as [rs |]; cbn [slot is_None negb].
  { inversion Hp; subst. exact Hsend. }
  discriminate.
Qed.

Lemma send_resize_ok_class r shape w w1 o :
  send_resize (PyObj r) shape w = (inr tt, w1) -> heap w !! r = Some o ->
  class_ o <> cls_FrameBuffer.
Proof.
  intros H Ho Hc. unfold send_resize in H.
  rewrite (bind_ok _ _ _ _ _ (deref_ok _ _ _ Ho)), Hc in H. discriminate.
Qed.

(** After a [FrameBuffer.resize] that returned, the shape query gives the
    shape the first attached object keeps for the argument: the argument
    itself when that object is a render buffer, three elements included. *)
Theorem FrameBuffer_resize_then_shape self shape w fb v c d s r l o w' :
  heap w !! self = Some fb ->
  _resizeable fb = Some v -> truthy v = true ->
  RenderBuffer.shape_ok shape = true ->
  holds fb c d s ->
  present c d s = r :: l ->
  heap w !! r = Some o ->
  FrameBuffer.resize self shape w = (inr tt, w') ->
  FrameBuffer.shape self w' = (inr (kept (class_ o) shape), w').
Proof.
  intros Ho Hv Ht Hs Hh Hp Hr H.
  rewrite (resize_is_forward _ _ _ _ _ _ _ _ Ho Hv Ht Hs Hh), Hp in H.
  pose proof H as Hfwd. cbn [forward] in H.
  apply bind_inv_ok in H as ([] & w1 & Hsend & _).
  pose proof (send_resize_ok_class _ _ _ _ _ Hsend Hr) as Hcl.
  destruct (forward_ok _ _ _ _ Hfwd) as (Hev & _ & Hin & _).
  destruct (Hev _ _ Ho) as (fb' & Ho' & (_ & _ & _ & _ & Hc' & Hd' & Hs' & _)).
  destruct (Hev _ _ Hr) as (o1 & Hr1 & (Hcl1 & _)).
  destruct (Hin r ltac:(apply elem_of_cons; now left)) as (o0 & o' & Hr0 & Hr' & Hat & _).
  rewrite Hr1 in Hr'. inversion Hr'; subst o'.
  eapply shape_of_first with (c := c) (d := d) (s := s); [| exact Hp |].
  - exists fb'. split; [exact Ho' |]. destruct Hh as (Hc & Hd & Hst).
    unfold holds. repeat split; congruence.
  - exists o1. split; [exact Hr1 |]. split; [congruence |].
    unfold at_size in Hat. now rewrite Hcl1 in Hat.
Qed.

Lemma new_self_fresh w : heap w !! new_self w = None.
Proof. unfold new_self. apply not_elem_of_dom. apply is_fresh. Qed.

Lemma at_attach_args_other resizeable w r :
  r <> new_self w -> heap (at_attach_args resizeable w) !! r = heap w !! r.
Proof.
  intros Hne. unfold at_attach_args. cbn [heap].
  rewrite !lookup_alter_ne by congruence. now rewrite lookup_insert_ne by congruence.
Qed.

(** The constructor is not all-or-nothing: when the color argument is
    accepted and the depth argument is refused, it raises the TypeError of
    the depth slot after the FrameBuffer was announced and the color buffer
    attached; both commands stay in the queue, and the instances that
    existed are untouched. *)
Theorem FrameBuffer_init_refused_depth color depth stencil resizeable w :
  instance_of w color [cls_ColorBuffer; cls_Texture2D] = true ->
  is_None depth = false ->
  instance_of w depth [cls_DepthBuffer; cls_Texture2D] = false ->
  exists w',
    FrameBuffer.__init__ color depth stencil resizeable w =
      (inl (TypeError "Buffer must be a DepthBuffer, Texture2D or None. (got %s)"), w') /\
    glir w' = (glir w ++ [CREATE (_idcount w + 1) "FrameBuffer";
                          ATTACH (_idcount w + 1) GL_COLOR_ATTACHMENT0 (attached_id w color)])%list /\
    (forall r o, heap w !! r = Some o -> heap w' !! r = Some o).
Proof.
  intros Hc Hn Hd.
  pose proof (new_self_fresh w) as Hfresh.
  pose proof (at_attach_args_lookup resizeable w) as Hl.
  set (w5 := at_attach_args resizeable w) in *.
  destruct color as [| | | | | | | rc]; try discriminate.
  unfold instance_of in Hc.
  destruct (heap w !! rc) as [oc |] eqn:Hrc; [| discriminate].
  assert (Hnec : rc <> new_self w) by (intros ->; congruence).
  assert (Hrc5 : heap w5 !! rc = Some oc)
    by (unfold w5; now rewrite at_attach_args_other).
  set (w6 := attached set_color GL_COLOR_ATTACHMENT0 (new_self w) (PyObj rc) w5).
  assert (Hcol : FrameBuffer.set_color_buffer (new_self w) (PyObj rc) w5 = (inr tt, w6)).
  { change FrameBuffer.set_color_buffer with (setter color_slot).
    rewrite (SlotFacts.setter_cases _ _ _ _ _ Hl).
    unfold instance_of. rewrite Hrc5. cbn [slot_accepts]. now rewrite Hc. }
  assert (Hl6 : exists fb6, heap w6 !! new_self w = Some fb6 /\ class_ fb6 = cls_FrameBuffer
                            /\ _id fb6 = _idcount w + 1).
  { eexists. split; [| split].
    - unfold w6, attached. cbn [heap]. rewrite lookup_alter_eq, Hl. reflexivity.
    - reflexivity.
    - reflexivity. }
  destruct Hl6 as (fb6 & Hl6 & Hcl6 & _).
  assert (Hother6 : forall r, r <> new_self w -> heap w6 !! r = heap w !! r).
  { intros r Hne. unfold w6, attached. cbn [heap].
    rewrite lookup_alter_ne by congruence. unfold w5. now apply at_attach_args_other. }
  assert (Hdep : FrameBuffer.set_depth_buffer (new_self w) depth w6 =
                 (inl (TypeError "Buffer must be a DepthBuffer, Texture2D or None. (got %s)"), w6)).
  { change FrameBuffer.set_depth_buffer with (setter depth_slot).
    rewrite (SlotFacts.setter_cases _ _ _ _ _ Hl6), Hn.
    assert (Hi : instance_of w6 depth (slot_accepts depth_slot) = false).
    { unfold instance_of in *. destruct depth as [| | | | | | | rd]; try reflexivity.
      destruct (decide (rd = new_self w)) as [-> | Hne].
      - rewrite Hl6, Hcl6. reflexivity.
      - rewrite (Hother6 _ Hne). exact Hd. }
    now rewrite Hi. }
  exists w6. split; [| split].
  - rewrite FrameBuffer_init_steps. fold w5. unfold attach_args. cbn [is_None negb].
    rewrite (bind_ok _ _ _ _ _ Hcol), Hn. cbn [negb].
    now rewrite (bind_raise _ _ _ _ _ Hdep).
  - unfold w6, attached. cbn [glir]. rewrite Hl. cbn [fmap option_fmap option_map default _id].
    unfold w5 at 1, at_attach_args. cbn [glir]. rewrite <- app_assoc. cbn [app].
    do 3 f_equal. unfold attached_id. now rewrite Hrc5, Hrc.
  - intros r o Hr. rewrite Hother6; [exact Hr |]. intros ->. congruence.
Qed.

End FrameBufferMore.

(** ** The command queue *)

Module QueueFacts.

Lemma appends_refl w : appends w w.
Proof. exists []. now rewrite app_nil_r. Qed.

Lemma appends_trans w1 w2 w3 : appends w1 w2 -> appends w2 w3 -> appends w1 w3.
Proof.
  intros (l1 & H1) (l2 & H2). exists (l1 ++ l2)%list.
  now rewrite H2, H1, app_assoc.
Qed.

Lemma appending_ret {A} (a : A) : appending (ret a).
Proof. intros w. apply appends_refl. Qed.

Lemma appending_raise {A} (e : exn) : appending (@raise A e).
Proof. intros w. apply appends_refl. Qed.

Lemma appending_bind {A B} (m : M A) (k : A -> M B) :
  appending m -> (forall a, appending (k a)) -> appending (bind m k).
Proof.
  intros Hm Hk w. unfold bind. specialize (Hm w).
  destruct (m w) as [[e | a] w1]; cbn [after snd] in *.
  - exact Hm.
  - eapply appends_trans; [exact Hm | apply Hk].
Qed.

Lemma appending_getattr f name v : appending (getattr f name v).
Proof.
  intros w. destruct (getattr f name v w) as [res w'] eqn:H.
  apply getattr_pure in H. subst. apply appends_refl.
Qed.

Lemma appending_deref r : appending (deref r).
Proof. intros w. unfold deref. destruct (heap w !! r); apply appends_refl. Qed.

Lemma appending_isinstance v cs : appending (isinstance v cs).
Proof.
  intros w. unfold isinstance.
  destruct v; try apply appends_refl. destruct (heap w !! r); apply appends_refl.
Qed.

Lemma appending_mutate r g : appending (mutate r g).
Proof. intros w. exists []. cbn. now rewrite app_nil_r. Qed.

Lemma appending_glir_command c : appending (glir_command c).
Proof. intros w. now exists [c]. Qed.

Lemma appending_GLObject_init c : appending (GLObject.__init__ c).
Proof. intros w. eexists. reflexivity. Qed.

Lemma appending_check_format self format :
  appending (RenderBuffer.check_format self format).
Proof.
  intros w. destruct (RenderBuffer.check_format self format w) as [res w'] eqn:H.
  apply RenderBufferFacts.check_format_pure in H. subst. apply appends_refl.
Qed.

Lemma appending_unpack2 v : appending (unpack2 v).
Proof.
  intros w. unfold unpack2.
  destruct v as [| | | | s | l | l |]; try apply appends_refl.
  - destruct s as [| a [| b [| c s]]]; apply appends_refl.
  - destruct l as [| a [| b [| c l]]]; apply appends_refl.
  - destruct l as [| a [| b [| c l]]]; apply appends_refl.
Qed.

Ltac appending_step :=
  lazymatch goal with
  | |- appending (bind _ _) => apply appending_bind; [| intros ?]
  | |- appending (ret _) => apply appending_ret
  | |- appending (raise _) => apply appending_raise
  | |- appending (getattr _ _ _) => apply appending_getattr
  | |- appending (deref _) => apply appending_deref
  | |- appending (isinstance _ _) => apply appending_isinstance
  | |- appending (mutate _ _) => apply appending_mutate
  | |- appending (glir_command _) => apply appending_glir_command
  | |- appending (GLObject.__init__ _) => apply appending_GLObject_init
  | |- appending (RenderBuffer.check_format _ _) => apply appending_check_format
  | |- appending (unpack2 _) => apply appending_unpack2
  | |- appending (if ?b then _ else _) => destruct b
  | |- appending (match ?x with _ => _ end) => destruct x
  | |- appending (let (_, _) := ?x in _) => destruct x
  end.

Lemma appending_RenderBuffer_resize self shape format :
  appending (RenderBuffer.resize self shape format).
Proof. unfold RenderBuffer.resize. repeat appending_step. Qed.

Lemma appending_Texture2D_resize self shape format :
  appending (Texture2D.resize self shape format).
Proof. unfold Texture2D.resize. repeat appending_step. Qed.

Lemma appending_send_resize v shape : appending (send_resize v shape).
Proof.
  unfold send_resize. destruct v; try apply appending_raise.
  apply appending_bind; [apply appending_deref | intros o].
  destruct (class_ o);
    first [apply appending_RenderBuffer_resize | apply appending_Texture2D_resize
          | apply appending_raise].
Qed.

Lemma appending_send_shape v : appending (send_shape v).
Proof.
  unfold send_shape, RenderBuffer.shape, Texture2D.shape. repeat appending_step.
Qed.

Lemma appending_setter k self buffer : appending (setter k self buffer).
Proof.
  rewrite SlotFacts.setter_unfold. unfold FrameBuffer.id_or_0, GLObject.id.
  repeat appending_step.
Qed.

Lemma appending_forward_if v shape :
  appending (if negb (is_None v) then send_resize v shape else ret tt).
Proof. destruct (negb (is_None v)); [apply appending_send_resize | apply appending_ret]. Qed.

Lemma appending_FrameBuffer_resize self shape : appending (FrameBuffer.resize self shape).
Proof.
  unfold FrameBuffer.resize, FrameBuffer.color_buffer, FrameBuffer.depth_buffer,
    FrameBuffer.stencil_buffer.
  apply appending_bind; [appending_step | intros v].
  destruct (negb (truthy v)); [appending_step |].
  destruct (negb (RenderBuffer.shape_ok shape)); [appending_step |].
  repeat (apply appending_bind;
          [first [apply appending_getattr | apply appending_forward_if] | intros ?]).
  apply appending_forward_if.
Qed.

Lemma appending_FrameBuffer_shape self : appending (FrameBuffer.shape self).
Proof.
  unfold FrameBuffer.shape, FrameBuffer.color_buffer, FrameBuffer.depth_buffer,
    FrameBuffer.stencil_buffer.
  apply appending_bind; [appending_step | intros c].
  destruct (negb (is_None c)); [apply appending_send_shape |].
  apply appending_bind; [appending_step | intros d].
  destruct (negb (is_None d)); [apply appending_send_shape |].
  apply appending_bind; [appending_step | intros s].
  destruct (negb (is_None s)); [apply appending_send_shape | appending_step].
Qed.

Lemma appending_FrameBuffer_read self mode alpha :
  appending (FrameBuffer.read self mode alpha).
Proof.
  unfold FrameBuffer.read.
  apply appending_bind; [| intros _].
  { unfold wrappers._check_valid. repeat appending_step. }
  apply appending_bind; [| intros buffer].
  { unfold FrameBuffer.mode_buffer, FrameBuffer.color_buffer, FrameBuffer.depth_buffer,
      FrameBuffer.stencil_buffer. repeat appending_step. }
  apply appending_bind; [appending_step | intros sh].
  apply appending_bind; [apply appending_unpack2 | intros [h wd]].
  unfold wrappers.read_pixels. apply appending_ret.
Qed.

Lemma appending_RenderBuffer_init c shape format resizeable :
  appending (RenderBuffer.__init__ c shape format resizeable).
Proof.
  unfold RenderBuffer.__init__.
  apply appending_bind; [appending_step | intros self].
  apply appending_bind; [appending_step | intros _].
  apply appending_bind; [apply appending_RenderBuffer_resize | intros _; appending_step].
Qed.

Lemma appending_Texture2D_init shape format resizeable :
  appending (Texture2D.__init__ shape format resizeable).
Proof. unfold Texture2D.__init__. repeat appending_step. Qed.

Lemma appending_FrameBuffer_init color depth stencil resizeable :
  appending (FrameBuffer.__init__ color depth stencil resizeable).
Proof.
  unfold FrameBuffer.__init__.
  apply appending_bind; [appending_step | intros self].
  do 5 (apply appending_bind; [appending_step | intros _]).
  apply appending_bind; [| intros _].
  { destruct (negb (is_None color)); [apply (appending_setter color_slot) | appending_step]. }
  apply appending_bind; [| intros _].
  { destruct (negb (is_None depth)); [apply (appending_setter depth_slot) | appending_step]. }
  apply appending_bind; [| intros _; appending_step].
  destruct (negb (is_None stencil)); [apply (appending_setter stencil_slot) | appending_step].
Qed.

Lemma run_appends c w : appends w (run c w).
Proof.
  destruct c; cbn [run].
  - apply appending_RenderBuffer_init.
  - apply appending_Texture2D_init.
  - apply appending_FrameBuffer_init.
  - apply appending_RenderBuffer_resize.
  - apply appending_getattr.
  - apply appending_getattr.
  - apply appending_Texture2D_resize.
  - apply (appending_setter color_slot).
  - apply (appending_setter depth_slot).
  - apply (appending_setter stencil_slot).
  - apply appending_getattr.
  - apply appending_getattr.
  - apply appending_getattr.
  - apply appending_FrameBuffer_shape.
  - apply appending_FrameBuffer_resize.
  - apply appending_FrameBuffer_read.
Qed.

(** The queue is only ever extended by the objects: whatever the calls
    (readback apart), and whether they return or raise, the commands queued
    before are still there, in the same order, at the head of the queue. *)
Theorem queue_is_append_only calls w :
  Forall no_readback calls ->
  exists l, glir (run_all calls w) = (glir w ++ l)%list.
Proof.
  intros Hcalls. revert w.
  induction Hcalls as [| c calls _ _ IH]; intros w; cbn [run_all fold_left].
  - apply appends_refl.
  - eapply appends_trans; [apply run_appends | apply IH].
Qed.

(** No call removes an instance from the store or changes its class, its id
    or its resizeable flag, whether it returns or raises: the flag given at
    construction is final for FrameBuffers and textures as well. *)
Theorem instances_persist calls w r o :
  heap w !! r = Some o ->
  exists o', heap (run_all calls w) !! r = Some o' /\
             class_ o' = class_ o /\ _id o' = _id o /\ _resizeable o' = _resizeable o.
Proof. intros H. exact (FrameFacts.run_all_extends calls w r o H). Qed.

End QueueFacts.

(** ** ScrollingLinesVisual.roll_data *)

Module RollFacts.
Import ScrollingLinesVisual.

Lemma roll_data_step self m :
  0 < snd (_data_shape self) ->
  0 <= _offset self <= snd (_data_shape self) ->
  0 <= m ->
  exists self',
    roll_data self m = (inr tt, self') /\
    _data_shape self' = _data_shape self /\
    0 <= _offset self' <= snd (_data_shape self) /\
    _offset self' mod snd (_data_shape self) = (_offset self + m) mod snd (_data_shape self) /\
    program_offset self' = _offset self' /\
    (m = snd (_data_shape self) - _offset self -> _offset self' = snd (_data_shape self)).
Proof.
  intros HL Ho Hm. unfold roll_data.
  destruct (Z.gtb_spec m (snd (_data_shape self) - _offset self)) as [Hgt | Hle].
  - destruct (Z.eqb_spec (snd (_data_shape self)) 0) as [H0 | H0]; [lia |].
    eexists. split; [reflexivity |]. cbn [_data_shape _offset program_offset].
    pose proof (Z.mod_pos_bound (_offset self + m) (snd (_data_shape self)) HL).
    repeat split; try lia.
    now rewrite Z.mod_mod by lia.
  - eexists. split; [reflexivity |]. cbn [_data_shape _offset program_offset].
    repeat split; lia.
Qed.

(** One call: with a positive line length and an offset within [0, L], any
    chunk of non-negative width is taken; the offset stays within [0, L], is
    congruent to the old offset plus the width, and is what the shader is
    given.  It reaches [L] itself (it is not wrapped to 0) when the chunk
    ends exactly at the end of the line. *)
Theorem roll_data_offset self m :
  0 < snd (_data_shape self) ->
  0 <= _offset self <= snd (_data_shape self) ->
  0 <= m ->
  exists self',
    roll_data self m = (inr tt, self') /\
    _data_shape self' = _data_shape self /\
    0 <= _offset self' <= snd (_data_shape self) /\
    _offset self' mod snd (_data_shape self) = (_offset self + m) mod snd (_data_shape self) /\
    program_offset self' = _offset self' /\
    (m = snd (_data_shape self) - _offset self -> _offset self' = snd (_data_shape self)).
Proof.
  intros HL Ho Hm. unfold roll_data.
  destruct (Z.gtb_spec m (snd (_data_shape self) - _offset self)) as [Hgt | Hle].
  - destruct (Z.eqb_spec (snd (_data_shape self)) 0) as [H0 | H0]; [lia |].
    eexists. split; [reflexivity |]. cbn [_data_shape _offset program_offset].
    pose proof (Z.mod_pos_bound (_offset self + m) (snd (_data_shape self)) HL).
    repeat split; try lia.
    now rewrite Z.mod_mod by lia.
  - eexists. split; [reflexivity |]. cbn [_data_shape _offset program_offset].
    repeat split; lia.
Qed.

Lemma roll_all_app ms1 ms2 self : roll_all (ms1 ++ ms2) self = roll_all ms2 (roll_all ms1 self).
Proof. unfold roll_all. apply fold_left_app. Qed.

(** Any number of calls on a visual built by [__init__]: the offset is
    within [0, L] and congruent modulo [L] to the number of samples written
    per line so far. *)
Theorem roll_all_offset n_lines line_size ms :
  0 < line_size ->
  Forall (fun m => 0 <= m) ms ->
  let self := roll_all ms (__init__ n_lines line_size) in
  _data_shape self = (n_lines, line_size) /\
  0 <= _offset self <= line_size /\
  _offset self mod line_size = foldr Z.add 0 ms mod line_size /\
  program_offset self = _offset self.
Proof.
  intros HL Hms. cbn zeta.
  induction ms as [| m ms IH] using rev_ind.
  - cbn. rewrite Z.mod_0_l by lia. repeat split; lia.
  - apply Forall_app in Hms as [Hms Hm]. rewrite Forall_singleton in Hm.
    rewrite roll_all_app. cbn [roll_all fold_left].
    destruct (IH Hms) as (Hs & Ho & Hmod & Hp).
    set (v := roll_all ms (__init__ n_lines line_size)) in *.
    destruct (roll_data_step v m) as (v' & Hr & Hs' & Ho' & Hmod' & Hp' & _).
    { now rewrite Hs. } { now rewrite Hs. } { exact Hm. }
    rewrite Hr. cbn [snd]. rewrite Hs in *. cbn [snd] in *.
    repeat split; try assumption; try lia.
    rewrite Hmod'. rewrite foldr_app. cbn [foldr].
    replace (foldr Z.add (m + 0) ms) with (foldr Z.add 0 ms + m).
    + rewrite Z.add_mod by lia. rewrite Hmod. rewrite <- Z.add_mod by lia. reflexivity.
    + clear. induction ms as [| a ms IH]; cbn [foldr]; lia.
Qed.

Lemma zip_seqZ a b n :
  zip (seqZ a n) (seqZ b n) = (fun j => (a - b + j, j)) <$> seqZ b n.
Proof.
  replace (seqZ a n) with (Z.add (a - b) <$> seqZ b n).
  - rewrite (zip_with_fmap_l pair (Z.add (a - b))).
    apply (zip_with_diag (fun x y => (a - b + x, y))).
  - rewrite fmap_add_seqZ. f_equal. lia.
Qed.

(** Where the samples go: for a chunk no wider than a line, the assignments
    of one call are well sized, and together they put data column [j] into
    texture column [(offset + j) mod L], for every [j] of the chunk in order:
    the texture is written as a ring. *)
Theorem roll_data_ring self m :
  0 < snd (_data_shape self) ->
  0 <= _offset self <= snd (_data_shape self) ->
  0 <= m <= snd (_data_shape self) ->
  exists new,
    _pos_tex (snd (roll_data self m)) = (_pos_tex self ++ new)%list /\
    Forall (fits (snd (_data_shape self)) m) new /\
    flat_map (pairs (snd (_data_shape self)) m) new =
      (fun j => ((_offset self + j) mod snd (_data_shape self), j)) <$> seqZ 0 m.
Proof.
  intros HL Ho Hm. unfold roll_data.
  set (L := snd (_data_shape self)) in *. set (o := _offset self) in *.
  destruct (Z.gtb_spec m (L - o)) as [Hgt | Hle].
  - destruct (Z.eqb_spec L 0) as [H0 | _]; [lia |].
    eexists. split; [reflexivity |].
    assert (Hc1 : columns (mk_slice (Some o) None) L = seqZ o (L - o)).
    { unfold columns, clip. cbn. destruct (Z.ltb_spec o 0); [lia |].
      now rewrite Z.min_l by lia. }
    assert (Hd1 : columns (mk_slice None (Some (L - o))) m = seqZ 0 (L - o)).
    { unfold columns, clip. cbn. destruct (Z.ltb_spec (L - o) 0); [lia |].
      rewrite Z.min_l by lia. f_equal. lia. }
    assert (Hc2 : columns (mk_slice None (Some (m - (L - o)))) L = seqZ 0 (m - (L - o))).
    { unfold columns, clip. cbn. destruct (Z.ltb_spec (m - (L - o)) 0); [lia |].
      rewrite Z.min_l by lia. f_equal. lia. }
    assert (Hd2 : columns (mk_slice (Some (L - o)) None) m = seqZ (L - o) (m - (L - o))).
    { unfold columns, clip. cbn. destruct (Z.ltb_spec (L - o) 0); [lia |].
      now rewrite Z.min_l by lia. }
    split.
    + apply Forall_cons. split.
      { unfold fits. cbn [cols from data_slice]. now rewrite Hc1, Hd1, !length_seqZ. }
      apply Forall_cons. split; [| apply Forall_nil_2].
      unfold fits. cbn [cols from data_slice]. now rewrite Hc2, Hd2, !length_seqZ.
    + cbn [flat_map]. unfold pairs. cbn [cols from data_slice].
      rewrite Hc1, Hd1, Hc2, Hd2, app_nil_r, !zip_seqZ.
      assert (Hsplit : seqZ 0 m = (seqZ 0 (L - o) ++ seqZ (L - o) (m - (L - o)))%list).
      { replace m with ((L - o) + (m - (L - o))) at 1 by lia.
        rewrite seqZ_app by lia. now rewrite Z.add_0_l. }
      rewrite Hsplit, fmap_app. f_equal.
      * apply list_fmap_ext. intros i j Hj. apply lookup_seqZ in Hj as [-> Hlt].
        f_equal. rewrite Z.mod_small by lia. lia.
      * apply list_fmap_ext. intros i j Hj. apply lookup_seqZ in Hj as [-> Hlt].
        f_equal. symmetry.
        replace (o + (L - o + Z.of_nat i)) with (Z.of_nat i + 1 * L) by lia.
        rewrite Z.mod_add by lia. rewrite Z.mod_small by lia. lia.
  - eexists. split; [reflexivity |].
    assert (Hc : columns (mk_slice (Some o) (Some (o + m))) L = seqZ o m).
    { unfold columns, clip. cbn. destruct (Z.ltb_spec o 0); [lia |].
      destruct (Z.ltb_spec (o + m) 0); [lia |].
      rewrite !Z.min_l by lia. f_equal. lia. }
    assert (Hd : columns (mk_slice None None) m = seqZ 0 m).
    { unfold columns. cbn. f_equal. lia. }
    split.
    + apply Forall_cons. split; [| apply Forall_nil_2].
      unfold fits. cbn [cols from data_slice]. now rewrite Hc, Hd, !length_seqZ.
    + cbn [flat_map]. unfold pairs. cbn [cols from data_slice].
      rewrite Hc, Hd, app_nil_r, zip_seqZ.
      apply list_fmap_ext. intros i j Hj. apply lookup_seqZ in Hj as [-> Hlt].
      f_equal. rewrite Z.mod_small by lia. lia.
Qed.

End RollFacts.

(** ** Further statements at concrete programs *)

Module MoreChecks.
Import Scenario.

Lemma w_one_lookup : heap w_one !! 1%positive = Some rb_one.
Proof. vm_compute. reflexivity. Defined.

Lemma w_two_buffers_lookup : heap w_two_buffers !! 3%positive = Some fb_two_buffers.
Proof. vm_compute. reflexivity. Defined.

Lemma resize_returns_iff_witness :
  RenderBuffer.resize 1 (yx 2 3) (PyStr "depth") w_one =
    (inr tt, stored 1 (yx 2 3) (PyEnum GL_DEPTH_COMPONENT16) w_one).
Proof.
  destruct (ResizeFacts.resize_returns_iff 1 (yx 2 3) (PyStr "depth") w_one rb_one
              (stored 1 (yx 2 3) (PyEnum GL_DEPTH_COMPONENT16) w_one) w_one_lookup) as [_ H].
  apply H. exists (PyBool true), (PyEnum GL_DEPTH_COMPONENT16). repeat split.
Defined.

Lemma resize_named_format_witness :
  RenderBuffer.resize 1 (yx 2 3) (PyStr "depth") w_one =
    (inr tt, stored 1 (yx 2 3) (PyEnum GL_DEPTH_COMPONENT16) w_one) /\
  RenderBuffer.format 1 (stored 1 (yx 2 3) (PyEnum GL_DEPTH_COMPONENT16) w_one) =
    (inr (PyEnum GL_DEPTH_COMPONENT16), stored 1 (yx 2 3) (PyEnum GL_DEPTH_COMPONENT16) w_one) /\
  glir (stored 1 (yx 2 3) (PyEnum GL_DEPTH_COMPONENT16) w_one) =
    (glir w_one ++ [SIZE 1 (yx 2 3) (PyEnum GL_DEPTH_COMPONENT16)])%list.
Proof.
  exact (ResizeFacts.resize_named_format 1 (yx 2 3) "depth" w_one rb_one (PyBool true)
           w_one_lookup eq_refl eq_refl eq_refl).
Defined.

Lemma resize_unchecked_format_witness :
  RenderBuffer.resize 1 (yx 2 3) (PyTuple [PyInt 1; PyInt 2]) w_one =
    (inr tt, stored 1 (yx 2 3) (PyTuple [PyInt 1; PyInt 2]) w_one) /\
  heap (stored 1 (yx 2 3) (PyTuple [PyInt 1; PyInt 2]) w_one) !! 1%positive =
    Some (set_format (PyTuple [PyInt 1; PyInt 2]) (set_shape (yx 2 3) rb_one)) /\
  glir (stored 1 (yx 2 3) (PyTuple [PyInt 1; PyInt 2]) w_one) =
    (glir w_one ++ [SIZE 1 (yx 2 3) (PyTuple [PyInt 1; PyInt 2])])%list.
Proof.
  exact (ResizeFacts.resize_unchecked_format 1 (yx 2 3) (PyTuple [PyInt 1; PyInt 2]) w_one
           rb_one (PyBool true) w_one_lookup eq_refl eq_refl eq_refl eq_refl eq_refl).
Defined.

Lemma resize_again_witness :
  exists c w2,
    RenderBuffer.resize 1 (yx 2 3) PyNone
      (after (RenderBuffer.resize 1 (yx 2 3) (PyStr "depth") w_one)) = (inr tt, w2) /\
    heap w2 = heap (after (RenderBuffer.resize 1 (yx 2 3) (PyStr "depth") w_one)) /\
    last (glir (after (RenderBuffer.resize 1 (yx 2 3) (PyStr "depth") w_one))) = Some c /\
    glir w2 = (glir (after (RenderBuffer.resize 1 (yx 2 3) (PyStr "depth") w_one)) ++ [c])%list.
Proof.
  apply (ResizeFacts.resize_again 1 (yx 2 3) (PyStr "depth") w_one).
  vm_compute. reflexivity.
Defined.

Lemma resize_then_shape_witness :
  RenderBuffer.shape 1 (after (RenderBuffer.resize 1 (yxz 2 3 1) PyNone w_one)) =
    (inr (yxz 2 3 1), after (RenderBuffer.resize 1 (yxz 2 3 1) PyNone w_one)).
Proof.
  apply (RenderBufferFacts.resize_then_shape 1 (yxz 2 3 1) PyNone w_one).
  vm_compute. reflexivity.
Defined.

Lemma set_attachment_outcome_witness :
  setter stencil_slot 3 (PyObj 1) w_two_buffers =
    (inl (TypeError "Buffer must be a StencilBuffer, Texture2D or None. (got %s)"),
     w_two_buffers) /\
  setter depth_slot 3 PyNone w_two_buffers =
    (inr tt, attached set_depth GL_DEPTH_ATTACHMENT 3 PyNone w_two_buffers).
Proof.
  split.
  - exact (SlotFacts.set_attachment_outcome stencil_slot 3 fb_two_buffers (PyObj 1)
             w_two_buffers w_two_buffers_lookup).
  - exact (SlotFacts.set_attachment_outcome depth_slot 3 fb_two_buffers PyNone
             w_two_buffers w_two_buffers_lookup).
Defined.

Lemma set_attachment_accepted_witness :
  exists w',
    setter color_slot 3 PyNone w_two_buffers = (inr tt, w') /\
    getter color_slot 3 w' = (inr PyNone, w') /\
    (forall k', k' <> color_slot ->
       outcome (getter k' 3 w') = outcome (getter k' 3 w_two_buffers)) /\
    (forall r, r <> 3%positive -> heap w' !! r = heap w_two_buffers !! r) /\
    glir w' = (glir w_two_buffers ++ [ATTACH 3 GL_COLOR_ATTACHMENT0 0])%list.
Proof.
  exact (SlotFacts.set_attachment_accepted color_slot 3 fb_two_buffers PyNone
           w_two_buffers w_two_buffers_lookup eq_refl).
Defined.

Lemma fixed_FrameBuffer_never_resizes_witness :
  FrameBuffer.resize 1 (yx 2 3) (run_all [FrameBuffer_set_color_buffer 1 PyNone] w_fixed) =
    (inl (RuntimeError "FrameBuffer is not resizeable"),
     run_all [FrameBuffer_set_color_buffer 1 PyNone] w_fixed).
Proof.
  destruct (FrameBufferMore.fixed_FrameBuffer_never_resizes PyNone PyNone PyNone
              (PyBool false) w0 eq_refl) as [_ H].
  apply (H 1%positive w_fixed). vm_compute. reflexivity.
Defined.

Lemma empty_FrameBuffer_witness :
  FrameBuffer.resize 1 (yx 2 3) w_empty = (inr tt, w_empty) /\
  FrameBuffer.shape 1 w_empty =
    (inl (RuntimeError "FrameBuffer without buffers has undefined shape"), w_empty).
Proof.
  apply (FrameBufferMore.empty_FrameBuffer 1 (yx 2 3) w_empty fb_empty (PyBool true)).
  - vm_compute. reflexivity.
  - reflexivity.
  - reflexivity.
  - reflexivity.
  - repeat split.
Defined.

Lemma FrameBuffer_resize_then_shape_witness :
  FrameBuffer.shape 3 (after (FrameBuffer.resize 3 (yxz 2 3 1) w_two_buffers)) =
    (inr (yxz 2 3 1), after (FrameBuffer.resize 3 (yxz 2 3 1) w_two_buffers)).
Proof.
  apply (FrameBufferMore.FrameBuffer_resize_then_shape 3 (yxz 2 3 1) w_two_buffers fb_two_buffers
           (PyBool true) (Some 1%positive) (Some 2%positive) None 1%positive [2%positive]
           cb_two_buffers).
  - exact w_two_buffers_lookup.
  - reflexivity.
  - reflexivity.
  - reflexivity.
  - repeat split.
  - reflexivity.
  - vm_compute. reflexivity.
  - vm_compute. reflexivity.
Defined.

Lemma read_empty_slot_witness :
  FrameBuffer.read 3 (PyStr "stencil") (PyBool true) w_two_buffers =
    (inl (AttributeError "_shape"), w_two_buffers).
Proof.
  apply (ReadFacts.read_empty_slot 3 fb_two_buffers "stencil" _stencil_buffer).
  - exact w_two_buffers_lookup.
  - reflexivity.
  - reflexivity.
Defined.

Lemma read_three_elements_witness :
  FrameBuffer.read 2 (PyStr "color") (PyBool true) w_three =
    (inl (ValueError "too many values to unpack"), w_three).
Proof.
  apply (ReadFacts.read_three_elements 2 fb_three "color" _color_buffer 1%positive cb_three
           (PyInt 480) (PyInt 640) (PyInt 1)).
  - vm_compute. reflexivity.
  - reflexivity.
  - reflexivity.
  - vm_compute. reflexivity.
  - reflexivity.
Defined.

Lemma queue_is_append_only_witness :
  exists l,
    glir (run_all [FrameBuffer_resize 3 (yx 2 3); FrameBuffer_set_color_buffer 3 (PyObj 2)]
            w_two_buffers) = (glir w_two_buffers ++ l)%list.
Proof.
  apply (QueueFacts.queue_is_append_only
           [FrameBuffer_resize 3 (yx 2 3); FrameBuffer_set_color_buffer 3 (PyObj 2)]
           w_two_buffers).
  repeat constructor.
Defined.

Lemma instances_persist_witness :
  exists o',
    heap (run_all [FrameBuffer_resize 3 (yx 2 3); FrameBuffer_set_color_buffer 3 PyNone]
            w_two_buffers) !! 3%positive = Some o' /\
    class_ o' = cls_FrameBuffer /\ _id o' = 3 /\ _resizeable o' = Some (PyBool true).
Proof.
  exact (QueueFacts.instances_persist
           [FrameBuffer_resize 3 (yx 2 3); FrameBuffer_set_color_buffer 3 PyNone]
           w_two_buffers 3%positive fb_two_buffers w_two_buffers_lookup).
Defined.


Lemma FrameBuffer_init_refused_depth_witness :
  exists w',
    FrameBuffer.__init__ (PyObj 1) (PyObj 1) PyNone (PyBool true) w_two_buffers =
      (inl (TypeError "Buffer must be a DepthBuffer, Texture2D or None. (got %s)"), w') /\
    glir w' = (glir w_two_buffers ++
                 [CREATE (_idcount w_two_buffers + 1) "FrameBuffer";
                  ATTACH (_idcount w_two_buffers + 1) GL_COLOR_ATTACHMENT0
                         (attached_id w_two_buffers (PyObj 1))])%list /\
    (forall r o, heap w_two_buffers !! r = Some o -> heap w' !! r = Some o).
Proof.
  apply (FrameBufferMore.FrameBuffer_init_refused_depth (PyObj 1) (PyObj 1) PyNone (PyBool true)
           w_two_buffers).
  - vm_compute. reflexivity.
  - reflexivity.
  - vm_compute. reflexivity.
Defined.

Lemma roll_data_offset_witness :
  exists self',
    ScrollingLinesVisual.roll_data lines 8 = (inr tt, self') /\
    ScrollingLinesVisual._data_shape self' = (10, 8) /\
    0 <= ScrollingLinesVisual._offset self' <= 8 /\
    ScrollingLinesVisual._offset self' mod 8 = (0 + 8) mod 8 /\
    ScrollingLinesVisual.program_offset self' = ScrollingLinesVisual._offset self' /\
    (8 = 8 - 0 -> ScrollingLinesVisual._offset self' = 8).
Proof.
  apply (RollFacts.roll_data_offset lines 8);
    unfold lines, ScrollingLinesVisual.__init__; cbn; lia.
Defined.

Lemma roll_all_offset_witness :
  ScrollingLinesVisual._data_shape (ScrollingLinesVisual.roll_all [5; 5] lines) = (10, 8) /\
  0 <= ScrollingLinesVisual._offset (ScrollingLinesVisual.roll_all [5; 5] lines) <= 8 /\
  ScrollingLinesVisual._offset (ScrollingLinesVisual.roll_all [5; 5] lines) mod 8
    = foldr Z.add 0 [5; 5] mod 8 /\
  ScrollingLinesVisual.program_offset (ScrollingLinesVisual.roll_all [5; 5] lines)
    = ScrollingLinesVisual._offset (ScrollingLinesVisual.roll_all [5; 5] lines).
Proof.
  apply (RollFacts.roll_all_offset 10 8 [5; 5]).
  - lia.
  - repeat constructor; lia.
Defined.

Lemma roll_data_ring_witness :
  exists new,
    ScrollingLinesVisual._pos_tex (snd (ScrollingLinesVisual.roll_data lines_5 5)) =
      (ScrollingLinesVisual._pos_tex lines_5 ++ new)%list /\
    Forall (ScrollingLinesVisual.fits 8 5) new /\
    flat_map (ScrollingLinesVisual.pairs 8 5) new =
      (fun j => ((5 + j) mod 8, j)) <$> seqZ 0 5.
Proof.
  apply (RollFacts.roll_data_ring lines_5 5);
    vm_compute; repeat split; (reflexivity || discriminate).
Defined.

End MoreChecks.
